(** * SMS.ir API client (SMS.py): a shallow embedding and its properties

    The Python module wraps one HTTP API.  Its two components are the error
    type [APIError] and the dispatcher [SMSClient._request]; every business
    method is a thin caller of the dispatcher.  The network and the log file
    are made explicit: a [World] holds the behaviour of the remote side, the
    list of HTTP calls attempted so far and the records written to the log,
    and an operation is a function from a world to a result (a value or a
    raised exception) and a new world. *)

From stdpp Require Import base strings pretty list gmap.
From Stdlib Require Import ZArith Lia.

Open Scope Z_scope.

(** ** Python values

    The values the client handles: what [response.json()] decodes, what the
    caller passes as template id, parameters or send time. *)

(** [datetime.datetime], by its calendar fields. *)
Record datetime := mk_datetime {
  year : Z; month : Z; day : Z; hour : Z; minute : Z; second : Z
}.

#[local] Set Warnings "-register-all".

(** A Python [float] is carried as the 64 bits of its IEEE double: the
    client never computes with one.  A [dict] keeps its insertion order. *)
Inductive pyval : Type :=
| PNone
| PBool (b : bool)
| PInt (n : Z)
| PFloat (bits : Z)
| PStr (s : string)
| PList (items : list pyval)
| PDict (entries : list (string * pyval))
| PDatetime (t : datetime).

Abbreviation pydict := (list (string * pyval)).

(** [d.get(key)]: the value stored under [key], [None] when there is none. *)
Fixpoint dict_lookup (d : pydict) (key : string) : option pyval :=
  match d with
  | [] => None
  | (k, v) :: rest => if String.eqb k key then Some v else dict_lookup rest key
  end.

(** [d[key] = v]: an existing key keeps its place, a new one goes last. *)
Fixpoint dict_store (d : pydict) (key : string) (v : pyval) : pydict :=
  match d with
  | [] => [(key, v)]
  | (k, x) :: rest =>
      if String.eqb k key then (k, v) :: rest else (k, x) :: dict_store rest key v
  end.

(** [type(v).__name__], as it appears in the text of an [AttributeError]. *)
Definition type_name (v : pyval) : string :=
  match v with
  | PNone => "NoneType"
  | PBool _ => "bool"
  | PInt _ => "int"
  | PFloat _ => "float"
  | PStr _ => "str"
  | PList _ => "list"
  | PDict _ => "dict"
  | PDatetime _ => "datetime.datetime"
  end.

(** [isinstance(v, datetime)] *)
Definition isinstance_datetime (v : pyval) : bool :=
  match v with PDatetime _ => true | _ => false end.

(** Decimal text of a number, left-padded with zeros to [width] digits. *)
Definition zero_padded (width : nat) (n : Z) : string :=
  let digits := pretty n in
  String.concat "" (replicate (width - String.length digits) "0") +:+ digits.

(** [t.strftime("%Y-%m-%d %H:%M:%S")]; the year is written with four digits
    and every other field with two. *)
Definition strftime_Ymd_HMS (t : datetime) : string :=
  zero_padded 4 (year t) +:+ "-" +:+ zero_padded 2 (month t) +:+ "-" +:+
  zero_padded 2 (day t) +:+ " " +:+ zero_padded 2 (hour t) +:+ ":" +:+
  zero_padded 2 (minute t) +:+ ":" +:+ zero_padded 2 (second t).

(** ** The error type: [class APIError(Exception)] *)

Module APIError.

(** [message] is [self.args[0]]; [status_code] defaults to [None]. *)
Record t := mk { message : string; status_code : option Z }.

Definition __init__ (message : string) (status_code : option Z) : t :=
  mk message status_code.

(** Truth value of [self.status_code] in [if self.status_code:]: [None] is
    false, and so is the integer zero. *)
Definition truthy (status_code : option Z) : bool :=
  match status_code with
  | None => false
  | Some c => negb (c =? 0)
  end.

Definition __str__ (self : t) : string :=
  if truthy (status_code self)
  then "APIError " +:+ from_option pretty "None" (status_code self) +:+ ": " +:+ message self
  else "APIError: " +:+ message self.

End APIError.

(** ** Exceptions and results *)

(** The exception classes the module raises or lets through.
    [RequestException] stands for [requests.exceptions.RequestException] and
    all its subclasses ([ConnectionError], [Timeout], [HTTPError], ...),
    which the [except] clauses of the module do not tell apart; [desc] is
    the text [str(e)]. *)
Inductive exn : Type :=
| RequestException (desc : string)
| APIError_raised (e : APIError.t)
| ValueError (msg : string)
| AttributeError (msg : string).

Inductive Result (A : Type) : Type :=
| Ok (a : A)
| Raise (e : exn).

Arguments Ok {A} a.
Arguments Raise {A} e.

(** ** The [requests] library, as the module sees it *)

(** One call into the library: what it is asked to send. *)
Record Request := mk_Request {
  method : string;
  url : string;
  headers : gmap string string;
  json : option pyval;
  timeout : Z
}.

(** A received response.  [json_body] is the outcome of [response.json()]:
    the decoded value, or the exception the decoder raises. *)
Record Response := mk_Response {
  status_code : Z;
  reason : string;
  response_url : string;
  json_body : Result pyval
}.

(** ** The world *)

Inductive level : Type := INFO | ERROR.

(** A log message is kept as the pieces of its f-string: literal text and
    interpolated values. *)
Inductive piece : Type :=
| Text (s : string)
| Value (v : pyval).

Record LogRecord := mk_LogRecord { levelname : level; msg : list piece }.

(** [remote] answers a call, given the calls attempted before it: it either
    raises (no response was received) or yields the response.
    [default_headers] are the headers of a fresh [requests.Session()].
    Neither is changed by the module; [sent] and [log] only grow. *)
Record World := mk_World {
  remote : list Request -> Request -> Result Response;
  default_headers : gmap string string;
  sent : list Request;
  log : list LogRecord
}.

(** An operation of the module. *)
Definition M (A : Type) : Type := World -> Result A * World.

#[global] Instance M_ret : MRet M := fun A a w => (Ok a, w).

#[global] Instance M_bind : MBind M := fun A B f m w =>
  match m w with
  | (Ok a, w') => f a w'
  | (Raise e, w') => (Raise e, w')
  end.

Definition raise {A : Type} (e : exn) : M A := fun w => (Raise e, w).

(** [try: body / except requests.exceptions.RequestException as e: handler] *)
Definition try_except_RequestException {A : Type}
    (body : M A) (handler : string -> M A) : M A := fun w =>
  match body w with
  | (Raise (RequestException desc), w') => handler desc w'
  | outcome => outcome
  end.

Definition logging (lvl : level) (message : list piece) : M () := fun w =>
  (Ok (), mk_World (remote w) (default_headers w) (sent w)
            (log w ++ [mk_LogRecord lvl message])).

Module requests.

(** Hand one call to the library: it is recorded, and the remote side
    decides its outcome. *)
Definition send (req : Request) : M Response := fun w =>
  (remote w (sent w) req,
   mk_World (remote w) (default_headers w) (sent w ++ [req]) (log w)).

(** [requests.get(url, timeout=...)]: a GET through a fresh session. *)
Definition get (url : string) (timeout : Z) : M Response := fun w =>
  send (mk_Request "GET" url (default_headers w) None timeout) w.

(** [response.raise_for_status()]: an [HTTPError] for a status from 400
    to 599, nothing otherwise. *)
Definition raise_for_status (response : Response) : M () :=
  let status := status_code response in
  if (400 <=? status) && (status <? 500) then
    raise (RequestException (pretty status +:+ " Client Error: " +:+
             reason response +:+ " for url: " +:+ response_url response))
  else if (500 <=? status) && (status <? 600) then
    raise (RequestException (pretty status +:+ " Server Error: " +:+
             reason response +:+ " for url: " +:+ response_url response))
  else mret ().

(** [response.json()] *)
Definition json (response : Response) : M pyval := fun w =>
  (json_body response, w).

(** [requests.Session]: only its headers matter here. *)
Record Session := mk_Session { session_headers : gmap string string }.

(** [requests.Session()] *)
Definition new_Session : M Session := fun w =>
  (Ok (mk_Session (default_headers w)), w).

(** [session.headers.update(items)] *)
Definition headers_update (s : Session) (items : list (string * string)) : Session :=
  mk_Session (foldl (fun h kv => <[kv.1 := kv.2]> h) (session_headers s) items).

(** [session.request(method, url, json=..., timeout=...)] *)
Definition request (s : Session) (method url : string)
    (json : option pyval) (timeout : Z) : M Response :=
  send (mk_Request method url (session_headers s) json timeout).

End requests.

(** ** [fetch_data] *)

(** The [except] clause reads [response.status_code] when the name
    [response] is bound, that is when [requests.get] returned, and uses
    [None] when [requests.get] itself raised. *)
Definition fetch_data (url : string) : M pyval := fun w =>
  let failure := "درخواست به API ناموفق بود" in
  match requests.get url 10 w with
  | (Raise (RequestException _), w') =>
      raise (APIError_raised (APIError.__init__ failure None)) w'
  | (Raise e, w') => (Raise e, w')
  | (Ok response, w') =>
      try_except_RequestException
        (_ ← requests.raise_for_status response; requests.json response)
        (fun _ => raise (APIError_raised
                    (APIError.__init__ failure (Some (status_code response)))))
        w'
  end.

(** ** [class SMSClient] *)

(** [obj.get(key)]: a lookup with default [None] on a [dict]; any other
    decoded value has no such method. *)
Definition py_get (obj : pyval) (key : string) : M pyval :=
  match obj with
  | PDict d => mret (default PNone (dict_lookup d key))
  | _ => raise (AttributeError
                  ("'" +:+ type_name obj +:+ "' object has no attribute 'get'"))
  end.

Module SMSClient.

Definition BASE_URL : string := "https://api.sms.ir/v1".

Record t := mk { api_key : string; session : requests.Session }.

Definition __init__ (api_key : string) : M t :=
  s ← requests.new_Session;
  mret (mk api_key
          (requests.headers_update s
             [("Content-Type", "application/json");
              ("Accept", "text/plain");
              ("x-api-key", api_key)])).

(** The dispatcher. *)
Definition _request (self : t) (method endpoint : string)
    (data : option pyval) : M pyval :=
  let url := BASE_URL +:+ "/" +:+ endpoint in
  try_except_RequestException
    (response ← requests.request (session self) method url data 10;
     _ ← requests.raise_for_status response;
     requests.json response)
    (fun e =>
       _ ← logging ERROR [Text "خطا در درخواست به "; Text url; Text ": "; Text e];
       raise (APIError_raised
                (APIError.__init__ ("API request failed: " +:+ e) None))).

Definition send_sms (self : t) (mobile : string)
    (template_id parameters : pyval) : M pyval :=
  let data := PDict [("mobile", PStr mobile); ("templateId", template_id);
                     ("parameters", parameters)] in
  response ← _request self "POST" "send/verify" (Some data);
  _ ← logging INFO [Text "پیامک به "; Text mobile; Text " ارسال شد. وضعیت: "; Value response];
  mret response.

(** The dict comprehension of [send_bulk_sms]: one [send_sms] per mobile,
    in order, each result stored under its mobile. *)
Fixpoint send_each (self : t) (mobiles : list string)
    (template_id parameters : pyval) (results : pydict) : M pydict :=
  match mobiles with
  | [] => mret results
  | mobile :: rest =>
      response ← send_sms self mobile template_id parameters;
      send_each self rest template_id parameters
        (dict_store results mobile response)
  end.

Definition send_bulk_sms (self : t) (mobiles : list string)
    (template_id parameters : pyval) : M pyval :=
  results ← send_each self mobiles template_id parameters [];
  mret (PDict results).

Definition check_credit (self : t) : M pyval :=
  response ← _request self "GET" "credit" None;
  credit ← py_get response "credit";
  _ ← logging INFO [Text "اعتبار پنل: "; Value credit];
  mret credit.

Definition schedule_sms (self : t) (mobile : string)
    (template_id parameters send_time : pyval) : M pyval :=
  match send_time with
  | PDatetime t =>
      let formatted_time := strftime_Ymd_HMS t in
      let data := PDict [("mobile", PStr mobile); ("templateId", template_id);
                         ("parameters", parameters);
                         ("sendDateTime", PStr formatted_time)] in
      response ← _request self "POST" "send/schedule" (Some data);
      _ ← logging INFO [Text "پیامک زمان‌بندی شد برای "; Text formatted_time; Text ". وضعیت: "; Value response];
      mret response
  | _ => raise (ValueError "فرمت زمان ارسال باید یک شیء datetime باشد.")
  end.

Definition get_sms_status (self : t) (message_id : string) : M pyval :=
  response ← _request self "GET" ("sms/status/" +:+ message_id) None;
  status ← py_get response "status";
  _ ← logging INFO [Text "وضعیت پیامک "; Text message_id; Text ": "; Value status];
  mret status.

End SMSClient.

(** [cancel_scheduled_sms] is written at module level, with the client as
    its first argument. *)
Definition cancel_scheduled_sms (self : SMSClient.t) (message_id : string) : M pyval :=
  response ← SMSClient._request self "DELETE" ("sms/schedule/" +:+ message_id) None;
  _ ← logging INFO [Text "پیامک "; Text message_id; Text " لغو شد. وضعیت: "; Value response];
  mret response.

(** * Properties *)

(** ** Running the dispatcher *)

(** The call [_request] hands to the library. *)
Definition dispatched (self : SMSClient.t) (method endpoint : string)
    (data : option pyval) : Request :=
  mk_Request method (SMSClient.BASE_URL +:+ "/" +:+ endpoint)
    (requests.session_headers (SMSClient.session self)) data 10.

(** The world once [req] has been attempted. *)
Definition after_send (w : World) (req : Request) : World :=
  mk_World (remote w) (default_headers w) (sent w ++ [req]) (log w).

(** The world once [req] has been attempted and its failure logged. *)
Definition after_failure (w : World) (req : Request) (desc : string) : World :=
  mk_World (remote w) (default_headers w) (sent w ++ [req])
    (log w ++ [mk_LogRecord ERROR
                 [Text "خطا در درخواست به "; Text (url req); Text ": "; Text desc]]).

(** What the dispatcher raises on a [RequestException] with text [desc]. *)
Definition request_failed (desc : string) : exn :=
  APIError_raised (APIError.mk ("API request failed: " +:+ desc) None).

(** A status for which [raise_for_status] is silent. *)
Definition passes_status (r : Response) : Prop :=
  ~ (400 <= status_code r < 600).

(** The result of running an operation, without the world. *)
Definition outcome {A : Type} (m : M A) (w : World) : Result A := (m w).1.

(** ** Sample worlds *)

Definition stock_headers : gmap string string :=
  list_to_map [("User-Agent", "python-requests"); ("Accept-Encoding", "gzip, deflate");
               ("Accept", "*/*"); ("Connection", "keep-alive")].

(** A world in which nothing has been sent or logged yet. *)
Definition fresh_world (remote : list Request -> Request -> Result Response) : World :=
  mk_World remote stock_headers [] [].

(** Every call times out. *)
Definition offline : World :=
  fresh_world (fun _ _ => Raise (RequestException "Read timed out. (read timeout=10)")).

(** Every call is answered with the same status, reason and decoded body. *)
Definition answering (status : Z) (reason : string) (body : pyval) : World :=
  fresh_world (fun _ req => Ok (mk_Response status reason (url req) (Ok body))).

(** The mobile number in the payload of a call, if it has one. *)
Definition payload_mobile (req : Request) : option string :=
  match json req with
  | Some (PDict d) =>
      match dict_lookup d "mobile" with
      | Some (PStr m) => Some m
      | _ => None
      end
  | _ => None
  end.

(** Calls for the mobile [down] get a 500, every other call a 200. *)
Definition failing_for (down : string) : World :=
  fresh_world (fun _ req =>
    match payload_mobile req with
    | Some m =>
        if String.eqb m down
        then Ok (mk_Response 500 "Internal Server Error" (url req)
                   (Ok (PDict [("message", PStr "error")])))
        else Ok (mk_Response 200 "OK" (url req) (Ok (PDict [("status", PInt 1)])))
    | None => Ok (mk_Response 200 "OK" (url req) (Ok (PDict [("status", PInt 1)])))
    end).

(** The client [SMSClient("YOURAPIKEY")] of the demonstration, as built in a
    world with the stock headers. *)
Definition sample_client : SMSClient.t :=
  SMSClient.mk "YOURAPIKEY"
    (requests.headers_update (requests.mk_Session stock_headers)
       [("Content-Type", "application/json"); ("Accept", "text/plain");
        ("x-api-key", "YOURAPIKEY")]).

(** The payload of [send_sms]. *)
Definition verify_payload (mobile : string) (template_id parameters : pyval) : pyval :=
  PDict [("mobile", PStr mobile); ("templateId", template_id);
         ("parameters", parameters)].

(** [SMSClient(api_key)] followed by one call on the new client. *)
Definition with_client {A : Type} (api_key : string) (call : SMSClient.t -> M A) : M A :=
  client ← SMSClient.__init__ api_key; call client.

(** The bulk send over [[A; B]] yields a mapping with an entry for [A] and
    with [B]'s response under [B]. *)
Definition bulk_send_covers_both (self : SMSClient.t) (A B : string)
    (template_id parameters : pyval) (w : World) : Prop :=
  exists results response_B,
    outcome (SMSClient.send_bulk_sms self [A; B] template_id parameters) w
      = Ok (PDict results) /\
    is_Some (dict_lookup results A) /\
    dict_lookup results B = Some response_B.

(** ** The operations of a client *)

(** The methods a caller has on a client, with their arguments. *)
Inductive operation : Type :=
| Send_sms (mobile : string) (template_id parameters : pyval)
| Send_bulk_sms (mobiles : list string) (template_id parameters : pyval)
| Check_credit
| Schedule_sms (mobile : string) (template_id parameters send_time : pyval)
| Get_sms_status (message_id : string)
| Cancel_scheduled_sms (message_id : string).

Definition perform (self : SMSClient.t) (op : operation) : M pyval :=
  match op with
  | Send_sms mobile template_id parameters =>
      SMSClient.send_sms self mobile template_id parameters
  | Send_bulk_sms mobiles template_id parameters =>
      SMSClient.send_bulk_sms self mobiles template_id parameters
  | Check_credit => SMSClient.check_credit self
  | Schedule_sms mobile template_id parameters send_time =>
      SMSClient.schedule_sms self mobile template_id parameters send_time
  | Get_sms_status message_id => SMSClient.get_sms_status self message_id
  | Cancel_scheduled_sms message_id => cancel_scheduled_sms self message_id
  end.

(** The call has the credential [api_key] in its API-key header. *)
Definition carries_credential (api_key : string) (req : Request) : Prop :=
  headers req !! "x-api-key" = Some api_key.

(** Run from any world, [m] only adds calls to [sent], and every call it
    adds satisfies [P]. *)
Definition only_sends {A : Type} (P : Request -> Prop) (m : M A) : Prop :=
  forall w, exists new, sent (m w).2 = sent w ++ new /\ Forall P new.

(** ** The functions written at module level

    Like [cancel_scheduled_sms], these take the client as their first
    argument. *)

(** [obj.get(key, fallback)]: the fallback stands in only for a key that is
    not there. *)
Definition py_get_or (obj : pyval) (key : string) (fallback : pyval) : M pyval :=
  match obj with
  | PDict d => mret (default fallback (dict_lookup d key))
  | _ => raise (AttributeError
                  ("'" +:+ type_name obj +:+ "' object has no attribute 'get'"))
  end.

(** A byte [10xxxxxx], which continues a character in UTF-8. *)
Definition is_continuation (a : Ascii.ascii) : bool :=
  match a with Ascii.Ascii _ _ _ _ _ _ b6 b7 => b7 && negb b6 end.

(** The number of characters of a text held as UTF-8 bytes. *)
Fixpoint code_points (s : string) : nat :=
  match s with
  | EmptyString => 0%nat
  | String a rest => ((if is_continuation a then 0 else 1) + code_points rest)%nat
  end.

(** [len(v)], or nothing for a value that has no length.  The entries of a
    [dict] have distinct keys, so their number is its length. *)
Definition py_len (v : pyval) : option Z :=
  match v with
  | PStr s => Some (Z.of_nat (code_points s))
  | PList items => Some (Z.of_nat (length items))
  | PDict entries => Some (Z.of_nat (length entries))
  | _ => None
  end.

(** The two functions that call [len] can also end in a [TypeError], which
    is not among the exceptions of [exn]: their result says which. *)
Inductive or_TypeError (A : Type) : Type :=
| Returned (a : A)
| TypeError (msg : string).

Arguments Returned {A} a.
Arguments TypeError {A} msg.

Definition no_len (v : pyval) : string :=
  "object of type '" +:+ type_name v +:+ "' has no len()".

Definition get_sent_messages (self : SMSClient.t) (page per_page : Z)
    : M (or_TypeError pyval) :=
  response ← SMSClient._request self "GET"
               ("sms/sent?page=" +:+ pretty page +:+ "&per_page=" +:+ pretty per_page)
               None;
  messages ← py_get_or response "messages" (PList []);
  match py_len messages with
  | Some n =>
      _ ← logging INFO [Text "دریافت "; Text (pretty n); Text " پیامک ارسال‌شده از صفحه "; Text (pretty page)];
      mret (Returned messages)
  | None => mret (TypeError (no_len messages))
  end.

Definition get_delivery_report (self : SMSClient.t) (message_id : string) : M pyval :=
  response ← SMSClient._request self "GET" ("sms/delivery/" +:+ message_id) None;
  delivery_status ← py_get response "status";
  _ ← logging INFO [Text "گزارش تحویل پیامک "; Text message_id; Text ": "; Value delivery_status];
  mret delivery_status.

(** The values given as keyword arguments: text, integers, booleans and
    [None], with their [str()]. *)
Inductive scalar : Type :=
| SNone
| SBool (b : bool)
| SInt (n : Z)
| SStr (s : string).

Definition scalar_str (v : scalar) : string :=
  match v with
  | SNone => "None"
  | SBool true => "True"
  | SBool false => "False"
  | SInt n => pretty n
  | SStr s => s
  end.

(** One entry of the list comprehension over [kwargs.items()]. *)
Definition template_parameter (item : string * scalar) : pyval :=
  PDict [("name", PStr item.1); ("value", PStr (scalar_str item.2))].

Definition send_sms_with_custom_template (self : SMSClient.t) (mobile : string)
    (template_id : pyval) (kwargs : list (string * scalar)) : M pyval :=
  let parameters := PList (map template_parameter kwargs) in
  SMSClient.send_sms self mobile template_id parameters.

Definition get_recent_sms_reports (self : SMSClient.t) (hours : Z)
    : M (or_TypeError pyval) :=
  response ← SMSClient._request self "GET"
               ("sms/reports?last_hours=" +:+ pretty hours) None;
  messages ← py_get_or response "messages" (PList []);
  match py_len messages with
  | Some n =>
      _ ← logging INFO [Text "گزارش "; Text (pretty n); Text " پیامک اخیر دریافت شد."];
      mret (Returned messages)
  | None => mret (TypeError (no_len messages))
  end.

Definition check_invalid_numbers (self : SMSClient.t) (numbers : pyval) : M pyval :=
  response ← SMSClient._request self "POST" "sms/check-invalid"
               (Some (PDict [("numbers", numbers)]));
  invalid_numbers ← py_get_or response "invalid_numbers" (PList []);
  _ ← logging INFO [Text "شماره‌های نامعتبر: "; Value invalid_numbers];
  mret invalid_numbers.

Definition send_test_sms (self : SMSClient.t) (mobile : string)
    (template_id parameters : pyval) : M pyval :=
  response ← SMSClient._request self "POST" "sms/send-test"
               (Some (PDict [("mobile", PStr mobile); ("templateId", template_id);
                             ("parameters", parameters)]));
  _ ← logging INFO [Text "پیامک تستی به "; Text mobile; Text " ارسال شد. وضعیت: "; Value response];
  mret response.

(** ** Notions used in the statements about the remaining code *)

(** The result is not a raised [APIError]: the library knows nothing of
    that class and never raises it. *)
Definition not_APIError {A : Type} (r : Result A) : Prop :=
  forall e, r <> Raise (APIError_raised e).

(** The exception is not a [RequestException]. *)
Definition not_RequestException (e : exn) : Prop :=
  forall desc, e <> RequestException desc.

(** The record the dispatcher writes for a failure with text [desc]. *)
Definition failure_record (req : Request) (desc : string) : LogRecord :=
  mk_LogRecord ERROR
    [Text "خطا در درخواست به "; Text (url req); Text ": "; Text desc].

(** The call [send_sms] makes for one mobile. *)
Definition verify_call (self : SMSClient.t) (template_id parameters : pyval)
    (mobile : string) : Request :=
  dispatched self "POST" "send/verify"
    (Some (verify_payload mobile template_id parameters)).

(** The remote side answers every call, after any history, with a 2xx
    response whose body decodes. *)
Definition always_answers (w : World) : Prop :=
  forall history req, exists r v,
    remote w history req = Ok r
    /\ 200 <= status_code r < 300
    /\ json_body r = Ok v.

(** The name and the text of a keyword argument, which is all that reaches
    the payload. *)
Definition keyword_text (item : string * scalar) : string * string :=
  (item.1, scalar_str item.2).

(** The record [send_sms] writes after a successful send. *)
Definition sent_record (mobile : string) (response : pyval) : LogRecord :=
  mk_LogRecord INFO
    [Text "پیامک به "; Text mobile; Text " ارسال شد. وضعیت: "; Value response].






(** The status code as [__str__] takes it: a zero counts as none. *)
Definition effective_status (status_code : option Z) : option Z :=
  if APIError.truthy status_code then status_code else None.

(** The character [:], code 58. *)
Definition colon : Ascii.ascii :=
  Ascii.Ascii false true false true true true false false.

(** No character of the text is a colon. *)
Fixpoint colon_free (s : string) : Prop :=
  match s with
  | EmptyString => True
  | String a rest => a <> colon /\ colon_free rest
  end.

Ltac unfold_run :=
  unfold SMSClient._request, try_except_RequestException, requests.request,
    requests.send, requests.json, requests.raise_for_status, logging, raise,
    mbind, M_bind, mret, M_ret; cbn [url method headers json timeout].

Lemma raise_for_status_passes (r : Response) (w : World) :
  passes_status r -> requests.raise_for_status r w = (Ok (), w).
Proof.
  unfold passes_status, requests.raise_for_status. intros H.
  destruct (400 <=? status_code r) eqn:E4, (status_code r <? 500) eqn:E5,
    (500 <=? status_code r) eqn:E6, (status_code r <? 600) eqn:E7;
    cbn; try reflexivity; lia.
Qed.

Lemma raise_for_status_raises (r : Response) (w : World) :
  400 <= status_code r < 600 ->
  exists desc, requests.raise_for_status r w = (Raise (RequestException desc), w).
Proof.
  unfold requests.raise_for_status. intros H.
  destruct (400 <=? status_code r) eqn:E4, (status_code r <? 500) eqn:E5,
    (500 <=? status_code r) eqn:E6, (status_code r <? 600) eqn:E7;
    cbn; eauto; lia.
Qed.

(** No response: the dispatcher logs the failure and raises. *)
Lemma _request_no_response self method endpoint data w desc :
  remote w (sent w) (dispatched self method endpoint data)
    = Raise (RequestException desc) ->
  SMSClient._request self method endpoint data w
    = (Raise (request_failed desc),
       after_failure w (dispatched self method endpoint data) desc).
Proof.
  intros H. unfold_run. fold (dispatched self method endpoint data).
  rewrite H. reflexivity.
Qed.

(** A response with an error status: the dispatcher logs and raises, and the
    error it raises carries no status code. *)
Lemma _request_error_status self method endpoint data w r :
  remote w (sent w) (dispatched self method endpoint data) = Ok r ->
  400 <= status_code r < 600 ->
  exists desc,
    SMSClient._request self method endpoint data w
      = (Raise (request_failed desc),
         after_failure w (dispatched self method endpoint data) desc).
Proof.
  intros H Hs.
  destruct (raise_for_status_raises r
              (after_send w (dispatched self method endpoint data)) Hs)
    as [desc Hd].
  exists desc. unfold SMSClient._request, try_except_RequestException,
    requests.request, requests.send, mbind, M_bind.
  fold (dispatched self method endpoint data). rewrite H.
  fold (after_send w (dispatched self method endpoint data)). rewrite Hd.
  reflexivity.
Qed.

(** A response that passes the status check and decodes: the decoded value
    is the result, and nothing is logged. *)
Lemma _request_decoded self method endpoint data w r v :
  remote w (sent w) (dispatched self method endpoint data) = Ok r ->
  passes_status r ->
  json_body r = Ok v ->
  SMSClient._request self method endpoint data w
    = (Ok v, after_send w (dispatched self method endpoint data)).
Proof.
  intros H Hs Hj.
  unfold SMSClient._request, try_except_RequestException,
    requests.request, requests.send, mbind, M_bind.
  fold (dispatched self method endpoint data). rewrite H.
  fold (after_send w (dispatched self method endpoint data)).
  rewrite (raise_for_status_passes r _ Hs).
  unfold requests.json. rewrite Hj. reflexivity.
Qed.

(** Whatever happens, the dispatcher attempts exactly one call. *)
Lemma _request_sent self method endpoint data w :
  sent (SMSClient._request self method endpoint data w).2
    = sent w ++ [dispatched self method endpoint data].
Proof.
  unfold SMSClient._request, try_except_RequestException,
    requests.request, requests.send, mbind, M_bind.
  fold (dispatched self method endpoint data).
  destruct (remote w (sent w) (dispatched self method endpoint data))
    as [r | [desc | e | m | m]]; try reflexivity.
  fold (after_send w (dispatched self method endpoint data)).
  unfold requests.raise_for_status.
  destruct ((400 <=? status_code r) && (status_code r <? 500)); [reflexivity|].
  destruct ((500 <=? status_code r) && (status_code r <? 600)); [reflexivity|].
  cbn. destruct (json_body r) as [v | [desc | e | m | m]]; reflexivity.
Qed.

(** ** The error type *)

(** C4 (as amended): for every message [m] and every status code [s] other
    than a present zero, [APIError(m, s)] renders as ["APIError <s>: <m>"]
    when [s] is present and as ["APIError: <m>"] when it is [None]; so
    ("X", 404) renders "APIError 404: X" and ("Y", None) renders
    "APIError: Y". *)
Theorem APIError_rendering (m : string) (s : option Z) (Hs : s <> Some 0) :
  APIError.__str__ (APIError.__init__ m s)
    = match s with
      | Some c => "APIError " +:+ pretty c +:+ ": " +:+ m
      | None => "APIError: " +:+ m
      end
  /\ APIError.__str__ (APIError.__init__ "X" (Some 404)) = "APIError 404: X"
  /\ APIError.__str__ (APIError.__init__ "Y" None) = "APIError: Y".
Proof.
  split; [| split; reflexivity].
  destruct s as [c |]; [| reflexivity].
  unfold APIError.__str__, APIError.__init__; cbn.
  destruct (c =? 0) eqn:E; [| reflexivity].
  apply Z.eqb_eq in E. subst c. contradiction.
Qed.

Lemma APIError_rendering_witness :
  Some 404 <> Some 0 /\
  APIError.__str__ (APIError.__init__ "X" (Some 404)) = "APIError 404: X".
Proof.
  assert (H : Some 404 <> Some 0) by discriminate.
  split; [exact H |].
  exact (proj1 (APIError_rendering "X" (Some 404) H)).
Defined.

(** C4 as first stated fails at a present status code of zero: the text is
    not ["APIError 0: X"]. *)
Lemma APIError_rendering_zero_counterexample :
  APIError.__str__ (APIError.__init__ "X" (Some 0))
    <> "APIError " +:+ pretty 0 +:+ ": " +:+ "X".
Proof. discriminate. Qed.

(** C10: a status code of zero is rendered like an absent one, as
    ["APIError: <m>"]. *)
Theorem APIError_zero_status_rendered_as_absent (m : string) :
  APIError.__str__ (APIError.__init__ m (Some 0)) = "APIError: " +:+ m
  /\ APIError.__str__ (APIError.__init__ m (Some 0))
       = APIError.__str__ (APIError.__init__ m None).
Proof. split; reflexivity. Qed.

(** ** Failures of the dispatcher *)

(** C1, at the failing input: [SMSClient("YOURAPIKEY")._request("GET",
    "credit")] answered with 404 Not Found raises an [APIError] whose
    status code is [None], not 404; [fetch_data], answered the same way,
    raises one whose status code is 404. *)
Theorem dispatcher_drops_status_code :
  outcome (with_client "YOURAPIKEY"
             (fun client => SMSClient._request client "GET" "credit" None))
          (answering 404 "Not Found" PNone)
    = Raise (APIError_raised (APIError.mk
        "API request failed: 404 Client Error: Not Found for url: https://api.sms.ir/v1/credit"
        None))
  /\ outcome (fetch_data "https://api.sms.ir/v1/credit")
             (answering 404 "Not Found" PNone)
    = Raise (APIError_raised (APIError.mk "درخواست به API ناموفق بود" (Some 404))).
Proof. split; vm_compute; reflexivity. Qed.

(** C3: when the call fails with no response received, the dispatcher
    raises an [APIError] whose status code is [None]. *)
Theorem transport_failure_has_no_status_code self method endpoint data w desc
    (Hdown : remote w (sent w) (dispatched self method endpoint data)
               = Raise (RequestException desc)) :
  exists e,
    outcome (SMSClient._request self method endpoint data) w
      = Raise (APIError_raised e)
    /\ APIError.message e = "API request failed: " +:+ desc
    /\ APIError.status_code e = None.
Proof.
  exists (APIError.mk ("API request failed: " +:+ desc) None).
  unfold outcome. rewrite (_request_no_response _ _ _ _ _ _ Hdown).
  repeat split.
Qed.

Lemma transport_failure_has_no_status_code_witness :
  exists e,
    outcome (SMSClient._request sample_client "POST" "send/verify" None) offline
      = Raise (APIError_raised e)
    /\ APIError.message e
         = "API request failed: " +:+ "Read timed out. (read timeout=10)"
    /\ APIError.status_code e = None.
Proof.
  apply (transport_failure_has_no_status_code sample_client "POST" "send/verify"
           None offline "Read timed out. (read timeout=10)").
  reflexivity.
Defined.

(** The same holds of [fetch_data]: [response] is not bound when
    [requests.get] raises. *)
Lemma fetch_data_transport_failure url w desc :
  remote w (sent w) (mk_Request "GET" url (default_headers w) None 10)
    = Raise (RequestException desc) ->
  outcome (fetch_data url) w
    = Raise (APIError_raised (APIError.mk "درخواست به API ناموفق بود" None)).
Proof.
  intros H. unfold outcome, fetch_data, requests.get, requests.send.
  rewrite H. reflexivity.
Qed.

(** [fetch_data] does pass on the status of an error response. *)
Lemma fetch_data_error_status url w r :
  remote w (sent w) (mk_Request "GET" url (default_headers w) None 10) = Ok r ->
  400 <= status_code r < 600 ->
  outcome (fetch_data url) w
    = Raise (APIError_raised
               (APIError.mk "درخواست به API ناموفق بود" (Some (status_code r)))).
Proof.
  intros H Hs. unfold outcome, fetch_data, requests.get, requests.send.
  rewrite H. unfold try_except_RequestException, mbind, M_bind.
  match goal with
  | |- context [requests.raise_for_status r ?w'] =>
      destruct (raise_for_status_raises r w' Hs) as [d Hd]; rewrite Hd
  end.
  reflexivity.
Qed.

(** ** Successful dispatch *)

Lemma _request_2xx self method endpoint data w r v :
  remote w (sent w) (dispatched self method endpoint data) = Ok r ->
  200 <= status_code r < 300 ->
  json_body r = Ok v ->
  SMSClient._request self method endpoint data w
    = (Ok v, after_send w (dispatched self method endpoint data)).
Proof.
  intros H Hs Hj. apply _request_decoded with (r := r); try assumption.
  unfold passes_status. lia.
Qed.

(** C6: on a 2xx response whose body decodes to [v], the dispatcher returns
    exactly [v]; it attempts the one call and writes nothing to the log. *)
Theorem successful_dispatch_returns_decoded_value self method endpoint data w r v
    (Hanswer : remote w (sent w) (dispatched self method endpoint data) = Ok r)
    (H2xx : 200 <= status_code r < 300)
    (Hbody : json_body r = Ok v) :
  SMSClient._request self method endpoint data w
    = (Ok v, after_send w (dispatched self method endpoint data)).
Proof. exact (_request_2xx _ _ _ _ _ _ _ Hanswer H2xx Hbody). Qed.

Lemma successful_dispatch_returns_decoded_value_witness :
  SMSClient._request sample_client "GET" "credit" None
    (answering 200 "OK" (PDict [("credit", PInt 1500); ("unit", PStr "IRR")]))
  = (Ok (PDict [("credit", PInt 1500); ("unit", PStr "IRR")]),
     after_send
       (answering 200 "OK" (PDict [("credit", PInt 1500); ("unit", PStr "IRR")]))
       (dispatched sample_client "GET" "credit" None)).
Proof.
  apply (successful_dispatch_returns_decoded_value sample_client "GET" "credit"
           None _ (mk_Response 200 "OK" "https://api.sms.ir/v1/credit"
                     (Ok (PDict [("credit", PInt 1500); ("unit", PStr "IRR")])))).
  - reflexivity.
  - cbn. lia.
  - reflexivity.
Defined.

(** ** The credential *)

Lemma __init___run api_key w :
  SMSClient.__init__ api_key w
    = (Ok (SMSClient.mk api_key
             (requests.headers_update (requests.mk_Session (default_headers w))
                [("Content-Type", "application/json"); ("Accept", "text/plain");
                 ("x-api-key", api_key)])), w).
Proof. reflexivity. Qed.

(** *** Calls added by an operation *)

Section OnlySends.

Variable P : Request -> Prop.

Lemma only_sends_ret {A : Type} (a : A) : only_sends P (mret a).
Proof. intros w. exists []. rewrite app_nil_r. split; [reflexivity | constructor]. Qed.

Lemma only_sends_raise {A : Type} (e : exn) : only_sends P (@raise A e).
Proof. intros w. exists []. rewrite app_nil_r. split; [reflexivity | constructor]. Qed.

Lemma only_sends_logging lvl message : only_sends P (logging lvl message).
Proof. intros w. exists []. rewrite app_nil_r. split; [reflexivity | constructor]. Qed.

Lemma only_sends_bind {A B : Type} (m : M A) (f : A -> M B) :
  only_sends P m -> (forall a, only_sends P (f a)) -> only_sends P (m ≫= f).
Proof.
  intros Hm Hf w. unfold mbind, M_bind.
  destruct (Hm w) as (new1 & E1 & F1).
  destruct (m w) as [[a | e] w1]; cbn in E1.
  - destruct (Hf a w1) as (new2 & E2 & F2).
    exists (new1 ++ new2). rewrite E2, E1, app_assoc.
    split; [reflexivity | by apply Forall_app].
  - exists new1. split; assumption.
Qed.

Lemma only_sends_py_get obj key : only_sends P (py_get obj key).
Proof.
  destruct obj; first [apply only_sends_ret | apply only_sends_raise].
Qed.

Lemma only_sends__request self verb endpoint data :
  P (dispatched self verb endpoint data) ->
  only_sends P (SMSClient._request self verb endpoint data).
Proof.
  intros HP w. exists [dispatched self verb endpoint data].
  split; [apply _request_sent | by repeat constructor].
Qed.

End OnlySends.

Ltac only_sends_step :=
  first [ apply only_sends_bind; [| intros ?]
        | apply only_sends_ret
        | apply only_sends_raise
        | apply only_sends_logging
        | apply only_sends_py_get
        | apply only_sends__request; assumption ].

Section ClientCalls.

Variable P : Request -> Prop.
Variable self : SMSClient.t.
Hypothesis dispatch_ok : forall verb endpoint data, P (dispatched self verb endpoint data).

Lemma only_sends_send_sms mobile template_id parameters :
  only_sends P (SMSClient.send_sms self mobile template_id parameters).
Proof.
  unfold SMSClient.send_sms.
  apply only_sends_bind; [apply only_sends__request, dispatch_ok | intros ?].
  repeat only_sends_step.
Qed.

Lemma only_sends_send_each mobiles template_id parameters results :
  only_sends P (SMSClient.send_each self mobiles template_id parameters results).
Proof.
  revert results.
  induction mobiles as [| mobile rest IH]; intros results; cbn [SMSClient.send_each].
  - apply only_sends_ret.
  - apply only_sends_bind; [apply only_sends_send_sms | intros response; apply IH].
Qed.

Lemma only_sends_perform op : only_sends P (perform self op).
Proof.
  destruct op as [mobile tid params | mobiles tid params | | mobile tid params t
                 | message_id | message_id]; cbn [perform].
  - apply only_sends_send_sms.
  - unfold SMSClient.send_bulk_sms.
    apply only_sends_bind; [apply only_sends_send_each | intros ?; apply only_sends_ret].
  - unfold SMSClient.check_credit.
    apply only_sends_bind; [apply only_sends__request, dispatch_ok | intros ?].
    repeat only_sends_step.
  - unfold SMSClient.schedule_sms.
    destruct t; try apply only_sends_raise.
    apply only_sends_bind; [apply only_sends__request, dispatch_ok | intros ?].
    repeat only_sends_step.
  - unfold SMSClient.get_sms_status.
    apply only_sends_bind; [apply only_sends__request, dispatch_ok | intros ?].
    repeat only_sends_step.
  - unfold cancel_scheduled_sms.
    apply only_sends_bind; [apply only_sends__request, dispatch_ok | intros ?].
    repeat only_sends_step.
Qed.

End ClientCalls.

(** C5: a client constructed with a credential sends it on every dispatch:
    whatever the verb, the endpoint and the body, the one call the
    dispatcher attempts has the credential under ["x-api-key"]; and every
    call that any operation of the client adds to the calls attempted has
    it too. *)
Theorem every_dispatch_carries_credential api_key w0 :
  exists client,
    SMSClient.__init__ api_key w0 = (Ok client, w0)
    /\ (forall verb endpoint data w,
          exists req,
            sent (SMSClient._request client verb endpoint data w).2 = sent w ++ [req]
            /\ method req = verb
            /\ carries_credential api_key req)
    /\ (forall op, only_sends (carries_credential api_key) (perform client op)).
Proof.
  eexists. split; [apply __init___run |].
  assert (Hkey : forall verb endpoint data,
            carries_credential api_key
              (dispatched
                 (SMSClient.mk api_key
                    (requests.headers_update (requests.mk_Session (default_headers w0))
                       [("Content-Type", "application/json"); ("Accept", "text/plain");
                        ("x-api-key", api_key)]))
                 verb endpoint data)).
  { intros verb endpoint data. unfold carries_credential. cbn.
    apply lookup_insert_eq. }
  split.
  - intros verb endpoint data w. eexists.
    split; [apply _request_sent |]. split; [reflexivity | apply Hkey].
  - intros op. apply only_sends_perform. exact Hkey.
Qed.

(** ** Business methods *)

(** C7: [schedule_sms] with a send time that is not a [datetime] raises
    [ValueError] and leaves the world as it was: no call is attempted. *)
Theorem schedule_sms_rejects_non_datetime self mobile template_id parameters
    send_time w (Hnot : isinstance_datetime send_time = false) :
  SMSClient.schedule_sms self mobile template_id parameters send_time w
    = (Raise (ValueError "فرمت زمان ارسال باید یک شیء datetime باشد."), w).
Proof. destruct send_time; try discriminate Hnot; reflexivity. Qed.

Lemma schedule_sms_rejects_non_datetime_witness :
  SMSClient.schedule_sms sample_client "09123456789" (PInt 12345) (PList [])
    (PStr "2025-01-02 03:04:05") offline
  = (Raise (ValueError "فرمت زمان ارسال باید یک شیء datetime باشد."), offline).
Proof.
  apply (schedule_sms_rejects_non_datetime sample_client "09123456789"
           (PInt 12345) (PList []) (PStr "2025-01-02 03:04:05") offline).
  reflexivity.
Defined.

(** [check_credit] on a 2xx response that decodes to the object [d]. *)
Lemma check_credit_on_object self w r d :
  remote w (sent w) (dispatched self "GET" "credit" None) = Ok r ->
  200 <= status_code r < 300 ->
  json_body r = Ok (PDict d) ->
  outcome (SMSClient.check_credit self) w
    = Ok (default PNone (dict_lookup d "credit")).
Proof.
  intros H Hs Hj. unfold outcome, SMSClient.check_credit, mbind, M_bind.
  rewrite (_request_2xx _ _ _ _ _ _ _ H Hs Hj). reflexivity.
Qed.

(** [get_sms_status] on a 2xx response that decodes to the object [d]. *)
Lemma get_sms_status_on_object self message_id w r d :
  remote w (sent w) (dispatched self "GET" ("sms/status/" +:+ message_id) None)
    = Ok r ->
  200 <= status_code r < 300 ->
  json_body r = Ok (PDict d) ->
  outcome (SMSClient.get_sms_status self message_id) w
    = Ok (default PNone (dict_lookup d "status")).
Proof.
  intros H Hs Hj. unfold outcome, SMSClient.get_sms_status, mbind, M_bind.
  rewrite (_request_2xx _ _ _ _ _ _ _ H Hs Hj). reflexivity.
Qed.

(** C8: when the call GET "credit" is answered with a body that decodes to
    [{"credit": 1500}], [check_credit] returns 1500. *)
Theorem check_credit_returns_credit_field self w r
    (Hanswer : remote w (sent w) (dispatched self "GET" "credit" None) = Ok r)
    (H2xx : 200 <= status_code r < 300)
    (Hbody : json_body r = Ok (PDict [("credit", PInt 1500)])) :
  outcome (SMSClient.check_credit self) w = Ok (PInt 1500)
  /\ sent (SMSClient.check_credit self w).2
       = sent w ++ [mk_Request "GET" "https://api.sms.ir/v1/credit"
                      (requests.session_headers (SMSClient.session self)) None 10].
Proof.
  split.
  - rewrite (check_credit_on_object _ _ _ _ Hanswer H2xx Hbody). reflexivity.
  - unfold SMSClient.check_credit, mbind, M_bind.
    rewrite (_request_2xx _ _ _ _ _ _ _ Hanswer H2xx Hbody). reflexivity.
Qed.

Lemma check_credit_returns_credit_field_witness :
  outcome (SMSClient.check_credit sample_client)
          (answering 200 "OK" (PDict [("credit", PInt 1500)]))
    = Ok (PInt 1500).
Proof.
  apply (check_credit_returns_credit_field sample_client
           (answering 200 "OK" (PDict [("credit", PInt 1500)]))
           (mk_Response 200 "OK" "https://api.sms.ir/v1/credit"
              (Ok (PDict [("credit", PInt 1500)])))).
  - reflexivity.
  - cbn. lia.
  - reflexivity.
Defined.

(** C9: when the decoded response object lacks the field a caller extracts,
    the caller returns [None] and raises nothing: so [check_credit] without
    ["credit"] and [get_sms_status] without ["status"]. *)
Theorem absent_field_yields_None self w :
  (forall r d,
     remote w (sent w) (dispatched self "GET" "credit" None) = Ok r ->
     200 <= status_code r < 300 ->
     json_body r = Ok (PDict d) ->
     dict_lookup d "credit" = None ->
     outcome (SMSClient.check_credit self) w = Ok PNone)
  /\
  (forall message_id r d,
     remote w (sent w)
       (dispatched self "GET" ("sms/status/" +:+ message_id) None) = Ok r ->
     200 <= status_code r < 300 ->
     json_body r = Ok (PDict d) ->
     dict_lookup d "status" = None ->
     outcome (SMSClient.get_sms_status self message_id) w = Ok PNone).
Proof.
  split.
  - intros r d H Hs Hj Hd.
    rewrite (check_credit_on_object _ _ _ _ H Hs Hj), Hd. reflexivity.
  - intros message_id r d H Hs Hj Hd.
    rewrite (get_sms_status_on_object _ _ _ _ _ H Hs Hj), Hd. reflexivity.
Qed.

Lemma absent_field_yields_None_witness :
  outcome (SMSClient.check_credit sample_client)
          (answering 200 "OK" (PDict [("data", PNone)])) = Ok PNone
  /\ outcome (SMSClient.get_sms_status sample_client "1234567890")
             (answering 200 "OK" (PDict [("data", PNone)])) = Ok PNone.
Proof.
  split.
  - apply (proj1 (absent_field_yields_None sample_client
                    (answering 200 "OK" (PDict [("data", PNone)])))
             (mk_Response 200 "OK" "https://api.sms.ir/v1/credit"
                (Ok (PDict [("data", PNone)]))) [("data", PNone)]).
    + reflexivity.
    + cbn. lia.
    + reflexivity.
    + reflexivity.
  - apply (proj2 (absent_field_yields_None sample_client
                    (answering 200 "OK" (PDict [("data", PNone)])))
             "1234567890"
             (mk_Response 200 "OK" "https://api.sms.ir/v1/sms/status/1234567890"
                (Ok (PDict [("data", PNone)]))) [("data", PNone)]).
    + reflexivity.
    + cbn. lia.
    + reflexivity.
    + reflexivity.
Defined.

(** ** Bulk send *)

(** [send_sms] attempts one call, whatever its outcome. *)
Lemma send_sms_sent self mobile template_id parameters w :
  sent (SMSClient.send_sms self mobile template_id parameters w).2
    = sent w ++ [dispatched self "POST" "send/verify"
                   (Some (verify_payload mobile template_id parameters))].
Proof.
  unfold SMSClient.send_sms, mbind, M_bind.
  fold (verify_payload mobile template_id parameters).
  rewrite <- _request_sent.
  destruct (SMSClient._request self "POST" "send/verify"
              (Some (verify_payload mobile template_id parameters)) w)
    as [[v | e] w']; reflexivity.
Qed.

(** A failed [send_sms] ends the comprehension: its exception leaves
    [send_each] with the world as the failed call left it. *)
Lemma send_each_first_fails self mobile rest template_id parameters results w e :
  outcome (SMSClient.send_sms self mobile template_id parameters) w = Raise e ->
  SMSClient.send_each self (mobile :: rest) template_id parameters results w
    = (Raise e, (SMSClient.send_sms self mobile template_id parameters w).2).
Proof.
  unfold outcome. intros H. cbn [SMSClient.send_each]. unfold mbind, M_bind.
  destruct (SMSClient.send_sms self mobile template_id parameters w)
    as [[v | e'] w']; cbn in H; [discriminate |].
  injection H as ->. reflexivity.
Qed.

(** C2 (as amended): over recipients [[A; B]], when the send for [A] fails,
    [send_bulk_sms] raises that failure: it returns no mapping, and the
    call for [A] is the only one attempted, so [B]'s is never issued. *)
Theorem bulk_send_stops_at_first_failure self A B template_id parameters w e
    (Hfail : outcome (SMSClient.send_sms self A template_id parameters) w = Raise e) :
  outcome (SMSClient.send_bulk_sms self [A; B] template_id parameters) w = Raise e
  /\ sent (SMSClient.send_bulk_sms self [A; B] template_id parameters w).2
       = sent w ++ [dispatched self "POST" "send/verify"
                      (Some (verify_payload A template_id parameters))].
Proof.
  assert (Hrun : SMSClient.send_bulk_sms self [A; B] template_id parameters w
                 = (Raise e, (SMSClient.send_sms self A template_id parameters w).2)).
  { unfold SMSClient.send_bulk_sms, mbind, M_bind.
    rewrite (send_each_first_fails _ _ _ _ _ _ _ _ Hfail). reflexivity. }
  unfold outcome. rewrite Hrun.
  split; [reflexivity | apply send_sms_sent].
Qed.

Lemma bulk_send_stops_at_first_failure_witness :
  outcome (SMSClient.send_bulk_sms sample_client ["09123456789"; "09351234567"]
             (PInt 12345) (PList [])) (failing_for "09123456789")
    = Raise (APIError_raised (APIError.mk
        "API request failed: 500 Server Error: Internal Server Error for url: https://api.sms.ir/v1/send/verify"
        None)).
Proof.
  apply (bulk_send_stops_at_first_failure sample_client "09123456789"
           "09351234567" (PInt 12345) (PList []) (failing_for "09123456789")).
  vm_compute. reflexivity.
Defined.

(** C2 as first stated fails: with the first recipient's send failing and
    the second's succeeding, the bulk send yields no mapping at all. *)
Lemma bulk_send_covers_both_counterexample :
  (exists e,
     outcome (SMSClient.send_sms sample_client "09123456789" (PInt 12345) (PList []))
             (failing_for "09123456789") = Raise e)
  /\ (exists v,
       outcome (SMSClient.send_sms sample_client "09351234567" (PInt 12345) (PList []))
               (failing_for "09123456789") = Ok v)
  /\ ~ bulk_send_covers_both sample_client "09123456789" "09351234567"
        (PInt 12345) (PList []) (failing_for "09123456789")
  /\ map payload_mobile
       (sent (SMSClient.send_bulk_sms sample_client ["09123456789"; "09351234567"]
                (PInt 12345) (PList []) (failing_for "09123456789")).2)
     = [Some "09123456789"].
Proof.
  split; [eexists; vm_compute; reflexivity |].
  split; [eexists; vm_compute; reflexivity |].
  split; [| vm_compute; reflexivity].
  intros (results & response_B & H & _).
  vm_compute in H. discriminate H.
Qed.

(** When every send succeeds the mapping has one entry per recipient, each
    holding that recipient's response. *)
Example bulk_send_all_succeed :
  outcome (SMSClient.send_bulk_sms sample_client ["09123456789"; "09351234567"]
             (PInt 12345) (PList [])) (answering 200 "OK" (PDict [("status", PInt 1)]))
    = Ok (PDict [("09123456789", PDict [("status", PInt 1)]);
                 ("09351234567", PDict [("status", PInt 1)])]).
Proof. vm_compute. reflexivity. Qed.

(** The sample client is the one the constructor builds in a fresh world. *)
Example sample_client_constructed :
  SMSClient.__init__ "YOURAPIKEY" offline = (Ok sample_client, offline).
Proof. reflexivity. Qed.


(** * The rest of the module *)

(** ** More on the dispatcher *)

(** The library raises something other than a [RequestException] before any
    response is there: the dispatcher lets it through. *)
Lemma _request_other_exception self verb endpoint data w e :
  remote w (sent w) (dispatched self verb endpoint data) = Raise e ->
  not_RequestException e ->
  SMSClient._request self verb endpoint data w
    = (Raise e, after_send w (dispatched self verb endpoint data)).
Proof.
  intros H He. unfold SMSClient._request, try_except_RequestException,
    requests.request, requests.send, mbind, M_bind.
  fold (dispatched self verb endpoint data). rewrite H.
  destruct e as [desc | | |]; [destruct (He desc eq_refl) | reflexivity..].
Qed.

(** The status check passes and [response.json()] raises. *)
Lemma _request_json_raises self verb endpoint data w r e :
  remote w (sent w) (dispatched self verb endpoint data) = Ok r ->
  passes_status r ->
  json_body r = Raise e ->
  SMSClient._request self verb endpoint data w
    = match e with
      | RequestException desc =>
          (Raise (request_failed desc),
           after_failure w (dispatched self verb endpoint data) desc)
      | _ => (Raise e, after_send w (dispatched self verb endpoint data))
      end.
Proof.
  intros H Hs Hj. unfold SMSClient._request, try_except_RequestException,
    requests.request, requests.send, mbind, M_bind.
  fold (dispatched self verb endpoint data). rewrite H.
  fold (after_send w (dispatched self verb endpoint data)).
  rewrite (raise_for_status_passes r _ Hs).
  unfold requests.json. rewrite Hj. destruct e; reflexivity.
Qed.

Lemma status_error_dec (r : Response) :
  {400 <= status_code r < 600} + {passes_status r}.
Proof.
  unfold passes_status.
  destruct (decide (400 <= status_code r < 600)); [left | right]; assumption.
Qed.

(** X1: the dispatcher never retries and never logs a success: whatever the
    outcome, exactly one call is attempted, to the base URL followed by the
    endpoint, with the given body and a timeout of 10; the log grows by at
    most one record, and by none when a value is returned. *)
Theorem dispatch_single_attempt self verb endpoint data w :
  sent (SMSClient._request self verb endpoint data w).2
    = sent w ++ [mk_Request verb ("https://api.sms.ir/v1/" +:+ endpoint)
                   (requests.session_headers (SMSClient.session self)) data 10]
  /\ (exists new, log (SMSClient._request self verb endpoint data w).2 = log w ++ new
                  /\ (length new <= 1)%nat)
  /\ (forall v, outcome (SMSClient._request self verb endpoint data) w = Ok v ->
        log (SMSClient._request self verb endpoint data w).2 = log w).
Proof.
  split; [apply _request_sent |].
  assert (Hcases :
    (SMSClient._request self verb endpoint data w).2
      = after_send w (dispatched self verb endpoint data)
    \/ exists desc,
        SMSClient._request self verb endpoint data w
          = (Raise (request_failed desc),
             after_failure w (dispatched self verb endpoint data) desc)).
  { destruct (remote w (sent w) (dispatched self verb endpoint data))
      as [r | e] eqn:Hr.
    - destruct (status_error_dec r) as [Herr | Hpass].
      + right. exact (_request_error_status _ _ _ _ _ _ Hr Herr).
      + destruct (json_body r) as [v | e] eqn:Hj.
        * left. rewrite (_request_decoded _ _ _ _ _ _ _ Hr Hpass Hj). reflexivity.
        * rewrite (_request_json_raises _ _ _ _ _ _ _ Hr Hpass Hj).
          destruct e; eauto.
    - destruct e as [desc | e | m | m].
      + right. exists desc. exact (_request_no_response _ _ _ _ _ _ Hr).
      + left. rewrite (_request_other_exception _ _ _ _ _ _ Hr); [reflexivity |].
        intros d; discriminate.
      + left. rewrite (_request_other_exception _ _ _ _ _ _ Hr); [reflexivity |].
        intros d; discriminate.
      + left. rewrite (_request_other_exception _ _ _ _ _ _ Hr); [reflexivity |].
        intros d; discriminate. }
  split.
  - destruct Hcases as [-> | [desc ->]].
    + exists []. rewrite app_nil_r. split; [reflexivity | cbn; lia].
    + eexists. split; [reflexivity | cbn; lia].
  - intros v Hv. unfold outcome in Hv.
    destruct Hcases as [-> | [desc Hd]]; [reflexivity |].
    rewrite Hd in Hv. discriminate Hv.
Qed.

(** X2: an [APIError] that comes out of the dispatcher never has a status
    code, whatever went wrong, and the failure behind it has been logged
    once, at level ERROR, with the URL and the cause. *)
Theorem dispatcher_error_never_has_status self verb endpoint data w e
    (Hlib : not_APIError (remote w (sent w) (dispatched self verb endpoint data)))
    (Hjson : forall r,
       remote w (sent w) (dispatched self verb endpoint data) = Ok r ->
       not_APIError (json_body r))
    (Hraised : outcome (SMSClient._request self verb endpoint data) w
                 = Raise (APIError_raised e)) :
  APIError.status_code e = None
  /\ exists desc,
       APIError.message e = "API request failed: " +:+ desc
       /\ log (SMSClient._request self verb endpoint data w).2
            = log w ++ [failure_record (dispatched self verb endpoint data) desc].
Proof.
  unfold outcome in Hraised.
  assert (Hfail : forall desc,
            SMSClient._request self verb endpoint data w
              = (Raise (request_failed desc),
                 after_failure w (dispatched self verb endpoint data) desc) ->
            APIError.status_code e = None
            /\ exists desc0,
                 APIError.message e = "API request failed: " +:+ desc0
                 /\ log (SMSClient._request self verb endpoint data w).2
                      = log w ++ [failure_record
                                    (dispatched self verb endpoint data) desc0]).
  { intros desc Hd. rewrite Hd in Hraised |- *. cbn in Hraised.
    injection Hraised as <-. split; [reflexivity |].
    exists desc. split; reflexivity. }
  destruct (remote w (sent w) (dispatched self verb endpoint data))
    as [r | e0] eqn:Hr.
  - destruct (status_error_dec r) as [Herr | Hpass].
    + destruct (_request_error_status _ _ _ _ _ _ Hr Herr) as [desc Hd]. eauto.
    + destruct (json_body r) as [v | e1] eqn:Hj.
      * rewrite (_request_decoded _ _ _ _ _ _ _ Hr Hpass Hj) in Hraised.
        discriminate Hraised.
      * pose proof (_request_json_raises _ _ _ _ _ _ _ Hr Hpass Hj) as Hrun.
        destruct e1 as [desc | e1 | m | m].
        -- eauto.
        -- destruct (Hjson r eq_refl e1). exact Hj.
        -- rewrite Hrun in Hraised. discriminate Hraised.
        -- rewrite Hrun in Hraised. discriminate Hraised.
  - destruct e0 as [desc | e0 | m | m].
    + apply (Hfail desc). exact (_request_no_response _ _ _ _ _ _ Hr).
    + destruct (Hlib e0). reflexivity.
    + rewrite (_request_other_exception _ _ _ _ _ _ Hr) in Hraised;
        [discriminate Hraised | intros d; discriminate].
    + rewrite (_request_other_exception _ _ _ _ _ _ Hr) in Hraised;
        [discriminate Hraised | intros d; discriminate].
Qed.

Lemma dispatcher_error_never_has_status_witness :
  APIError.status_code
    (APIError.mk
       "API request failed: 500 Server Error: Internal Server Error for url: https://api.sms.ir/v1/credit"
       None) = None
  /\ exists desc,
       "API request failed: 500 Server Error: Internal Server Error for url: https://api.sms.ir/v1/credit"
         = "API request failed: " +:+ desc
       /\ log (SMSClient._request sample_client "GET" "credit" None
                 (answering 500 "Internal Server Error" PNone)).2
            = log (answering 500 "Internal Server Error" PNone)
                ++ [failure_record (dispatched sample_client "GET" "credit" None) desc].
Proof.
  apply (dispatcher_error_never_has_status sample_client "GET" "credit" None
           (answering 500 "Internal Server Error" PNone)
           (APIError.mk
              "API request failed: 500 Server Error: Internal Server Error for url: https://api.sms.ir/v1/credit"
              None)).
  - intros e. discriminate.
  - intros r Hr e. injection Hr as <-. discriminate.
  - vm_compute. reflexivity.
Defined.



(** X4: for a response whose body decodes, the dispatcher fails exactly on
    the statuses from 400 to 599: any other status, 2xx or not, yields the
    decoded value. *)
Theorem dispatcher_fails_exactly_on_4xx_5xx self verb endpoint data w r v
    (Hanswer : remote w (sent w) (dispatched self verb endpoint data) = Ok r)
    (Hbody : json_body r = Ok v) :
  outcome (SMSClient._request self verb endpoint data) w = Ok v
  <-> ~ (400 <= status_code r < 600).
Proof.
  unfold outcome. split.
  - intros Hok Herr.
    destruct (_request_error_status _ _ _ _ _ _ Hanswer Herr) as [desc Hd].
    rewrite Hd in Hok. discriminate Hok.
  - intros Hpass. rewrite (_request_decoded _ _ _ _ _ _ _ Hanswer Hpass Hbody).
    reflexivity.
Qed.

Lemma dispatcher_fails_exactly_on_4xx_5xx_witness :
  outcome (SMSClient._request sample_client "GET" "credit" None)
          (answering 304 "Not Modified" (PDict [("credit", PInt 7)]))
    = Ok (PDict [("credit", PInt 7)])
  <-> ~ (400 <= 304 < 600).
Proof.
  apply (dispatcher_fails_exactly_on_4xx_5xx sample_client "GET" "credit" None
           (answering 304 "Not Modified" (PDict [("credit", PInt 7)]))
           (mk_Response 304 "Not Modified" "https://api.sms.ir/v1/credit"
              (Ok (PDict [("credit", PInt 7)])))); reflexivity.
Defined.

(** ** [fetch_data] *)

Lemma fetch_data_json_fails url w r desc :
  remote w (sent w) (mk_Request "GET" url (default_headers w) None 10) = Ok r ->
  passes_status r ->
  json_body r = Raise (RequestException desc) ->
  outcome (fetch_data url) w
    = Raise (APIError_raised
               (APIError.mk "درخواست به API ناموفق بود" (Some (status_code r)))).
Proof.
  intros H Hs Hj. unfold outcome, fetch_data, requests.get, requests.send.
  rewrite H. unfold try_except_RequestException, mbind, M_bind.
  rewrite (raise_for_status_passes r _ Hs).
  unfold requests.json. rewrite Hj. reflexivity.
Qed.

(** X5: once a response has been received, every failure [fetch_data]
    reports carries that response's status: an error status, and also the
    status of a response that passed the check but whose body does not
    decode, such as a 200. *)
Theorem fetch_data_reports_status_of_response url w r
    (Hanswer : remote w (sent w) (mk_Request "GET" url (default_headers w) None 10)
                 = Ok r)
    (Hfails : 400 <= status_code r < 600
              \/ exists desc, json_body r = Raise (RequestException desc)) :
  outcome (fetch_data url) w
    = Raise (APIError_raised
               (APIError.mk "درخواست به API ناموفق بود" (Some (status_code r)))).
Proof.
  destruct (status_error_dec r) as [Herr | Hpass].
  - exact (fetch_data_error_status _ _ _ Hanswer Herr).
  - destruct Hfails as [Herr | [desc Hj]]; [destruct (Hpass Herr) |].
    exact (fetch_data_json_fails _ _ _ _ Hanswer Hpass Hj).
Qed.

Lemma fetch_data_reports_status_of_response_witness :
  outcome (fetch_data "https://api.example.com/data")
          (fresh_world (fun _ req =>
             Ok (mk_Response 200 "OK" (url req)
                   (Raise (RequestException "Expecting value")))))
    = Raise (APIError_raised (APIError.mk "درخواست به API ناموفق بود" (Some 200))).
Proof.
  apply (fetch_data_reports_status_of_response "https://api.example.com/data"
           (fresh_world (fun _ req =>
              Ok (mk_Response 200 "OK" (url req)
                    (Raise (RequestException "Expecting value")))))
           (mk_Response 200 "OK" "https://api.example.com/data"
              (Raise (RequestException "Expecting value")))).
  - reflexivity.
  - right. exists "Expecting value". reflexivity.
Defined.

(** X6: [fetch_data] attempts exactly one call, a GET of the given URL with
    the headers of a fresh session, no body and a timeout of 10, and it
    never writes to the log, whatever the outcome. *)
Theorem fetch_data_single_plain_get url w :
  sent (fetch_data url w).2
    = sent w ++ [mk_Request "GET" url (default_headers w) None 10]
  /\ log (fetch_data url w).2 = log w.
Proof.
  unfold fetch_data, requests.get, requests.send.
  destruct (remote w (sent w) (mk_Request "GET" url (default_headers w) None 10))
    as [r | [desc | e | m | m]]; try (split; reflexivity).
  unfold try_except_RequestException, mbind, M_bind, requests.raise_for_status.
  destruct ((400 <=? status_code r) && (status_code r <? 500));
    [split; reflexivity |].
  destruct ((500 <=? status_code r) && (status_code r <? 600));
    [split; reflexivity |].
  cbn. destruct (json_body r) as [v | [desc | e | m | m]]; split; reflexivity.
Qed.

(** ** Bulk send over any list *)

Lemma dict_lookup_store_eq (d : pydict) key v :
  dict_lookup (dict_store d key v) key = Some v.
Proof.
  induction d as [| [k x] rest IH]; cbn.
  - by rewrite String.eqb_refl.
  - destruct (String.eqb k key) eqn:E; cbn; rewrite E; [reflexivity | exact IH].
Qed.

Lemma dict_lookup_store_ne (d : pydict) key key' v :
  key <> key' -> dict_lookup (dict_store d key v) key' = dict_lookup d key'.
Proof.
  intros Hne. induction d as [| [k x] rest IH]; cbn.
  - destruct (String.eqb_spec key key'); [contradiction | reflexivity].
  - destruct (String.eqb_spec k key) as [-> | Hk]; cbn.
    + destruct (String.eqb_spec key key'); [contradiction | reflexivity].
    + destruct (String.eqb_spec k key'); [reflexivity | exact IH].
Qed.

Lemma dict_lookup_is_Some (d : pydict) key :
  is_Some (dict_lookup d key) <-> key ∈ d.*1.
Proof.
  induction d as [| [k x] rest IH]; cbn.
  - split; [intros [? [=]] | intros H; by apply elem_of_nil in H].
  - rewrite elem_of_cons. destruct (String.eqb_spec k key) as [-> | Hk].
    + split; [intros _; by left | intros _; eauto].
    + rewrite IH. split; [by right |].
      intros [-> | H]; [contradiction | assumption].
Qed.

Lemma dict_store_keys_NoDup (d : pydict) key v :
  NoDup d.*1 -> NoDup (dict_store d key v).*1.
Proof.
  induction d as [| [k x] rest IH]; cbn; intros Hd.
  - apply NoDup_singleton.
  - apply NoDup_cons in Hd as [Hk Hrest].
    destruct (String.eqb_spec k key) as [-> | Hne]; cbn.
    + by apply NoDup_cons.
    + apply NoDup_cons. split; [| by apply IH].
      rewrite <- dict_lookup_is_Some, dict_lookup_store_ne by done.
      by rewrite dict_lookup_is_Some.
Qed.

(** The dispatcher leaves the remote side as it is. *)
Lemma _request_remote self verb endpoint data w :
  remote (SMSClient._request self verb endpoint data w).2 = remote w.
Proof.
  unfold SMSClient._request, try_except_RequestException,
    requests.request, requests.send, mbind, M_bind.
  destruct (remote w (sent w) _) as [r | [desc | e | m | m]]; try reflexivity.
  unfold requests.raise_for_status.
  destruct ((400 <=? status_code r) && (status_code r <? 500)); [reflexivity |].
  destruct ((500 <=? status_code r) && (status_code r <? 600)); [reflexivity |].
  cbn. destruct (json_body r) as [v | [desc | e | m | m]]; reflexivity.
Qed.

Lemma send_sms_remote self mobile template_id parameters w :
  remote (SMSClient.send_sms self mobile template_id parameters w).2 = remote w.
Proof.
  unfold SMSClient.send_sms, mbind, M_bind.
  rewrite <- (_request_remote self "POST" "send/verify"
                (Some (verify_payload mobile template_id parameters)) w).
  fold (verify_payload mobile template_id parameters).
  destruct (SMSClient._request self "POST" "send/verify"
              (Some (verify_payload mobile template_id parameters)) w)
    as [[v | e] w']; reflexivity.
Qed.

(** Where every call is answered, [send_sms] returns a value. *)
Lemma send_sms_answered self mobile template_id parameters w :
  always_answers w ->
  exists v, outcome (SMSClient.send_sms self mobile template_id parameters) w = Ok v.
Proof.
  intros Hw.
  destruct (Hw (sent w) (verify_call self template_id parameters mobile))
    as (r & v & Hr & Hs & Hj).
  exists v. unfold outcome, SMSClient.send_sms, mbind, M_bind.
  fold (verify_payload mobile template_id parameters).
  unfold verify_call in Hr. rewrite (_request_2xx _ _ _ _ _ _ _ Hr Hs Hj).
  reflexivity.
Qed.

Lemma send_each_prefix self template_id parameters mobiles :
  forall results w,
  exists k,
    (k <= length mobiles)%nat
    /\ sent (SMSClient.send_each self mobiles template_id parameters results w).2
         = sent w ++ map (verify_call self template_id parameters) (take k mobiles)
    /\ (forall final,
          (SMSClient.send_each self mobiles template_id parameters results w).1
            = Ok final -> k = length mobiles)
    /\ (forall e,
          (SMSClient.send_each self mobiles template_id parameters results w).1
            = Raise e -> (1 <= k)%nat).
Proof.
  induction mobiles as [| mobile rest IH]; intros results w.
  - exists 0%nat. cbn. rewrite app_nil_r. repeat split; [lia | discriminate].
  - cbn [SMSClient.send_each]. unfold mbind, M_bind.
    pose proof (send_sms_sent self mobile template_id parameters w) as Hsent.
    destruct (SMSClient.send_sms self mobile template_id parameters w)
      as [[response | e] w1]; cbn in Hsent.
    + destruct (IH (dict_store results mobile response) w1)
        as (k & Hk & Hs & Hok & Herr).
      exists (S k). split; [cbn; lia |].
      split; [| split].
      * rewrite Hs, Hsent, <- app_assoc. reflexivity.
      * intros final Hf. cbn. f_equal. exact (Hok final Hf).
      * intros e He. lia.
    + exists 1%nat. split; [cbn; lia |].
      split; [| split].
      * cbn. rewrite take_0. exact Hsent.
      * discriminate.
      * intros; lia.
Qed.


Lemma send_each_answered self template_id parameters mobiles :
  forall results w,
  always_answers w ->
  NoDup results.*1 ->
  exists final,
    (SMSClient.send_each self mobiles template_id parameters results w).1 = Ok final
    /\ NoDup final.*1
    /\ (forall m, is_Some (dict_lookup final m)
                  <-> m ∈ mobiles \/ is_Some (dict_lookup results m)).
Proof.
  induction mobiles as [| mobile rest IH]; intros results w Hw Hnd.
  - exists results. cbn. repeat split; [assumption | | ].
    + intros H; by right.
    + intros [H | H]; [by apply elem_of_nil in H | assumption].
  - cbn [SMSClient.send_each]. unfold mbind, M_bind.
    destruct (send_sms_answered self mobile template_id parameters w Hw)
      as [response Hresp].
    pose proof (send_sms_remote self mobile template_id parameters w) as Hrem.
    unfold outcome in Hresp.
    destruct (SMSClient.send_sms self mobile template_id parameters w)
      as [[response' | e] w1]; cbn in Hresp, Hrem; [| discriminate].
    injection Hresp as ->.
    assert (Hw1 : always_answers w1).
    { intros history req. rewrite Hrem. apply Hw. }
    destruct (IH (dict_store results mobile response) w1 Hw1
                (dict_store_keys_NoDup _ _ _ Hnd))
      as (final & Hf & Hnd' & Hdom).
    exists final. split; [exact Hf |]. split; [exact Hnd' |].
    intros m. rewrite Hdom, elem_of_cons.
    destruct (decide (mobile = m)) as [-> | Hne].
    + rewrite dict_lookup_store_eq. split; [intros _; left; by left |].
      intros _. right. eauto.
    + rewrite dict_lookup_store_ne by done. split.
      * intros [H | H]; [left; by right | by right].
      * intros [[-> | H] | H]; [contradiction | by left | by right].
Qed.

(** X8: where the remote side answers every call, [send_bulk_sms] returns a
    mapping whose keys are exactly the recipients of the list, each once,
    after one call for every element of the list: a recipient listed twice
    is sent to twice and has one entry. *)
Theorem bulk_send_all_answered self mobiles template_id parameters w
    (Hremote : always_answers w) :
  exists results,
    outcome (SMSClient.send_bulk_sms self mobiles template_id parameters) w
      = Ok (PDict results)
    /\ NoDup results.*1
    /\ (forall m, is_Some (dict_lookup results m) <-> m ∈ mobiles)
    /\ sent (SMSClient.send_bulk_sms self mobiles template_id parameters w).2
         = sent w ++ map (verify_call self template_id parameters) mobiles.
Proof.
  destruct (send_each_answered self template_id parameters mobiles [] w Hremote)
    as (final & Hf & Hnd & Hdom); [constructor |].
  destruct (send_each_prefix self template_id parameters mobiles [] w)
    as (k & _ & Hs & Hok & _).
  exists final. unfold outcome.
  unfold SMSClient.send_bulk_sms, mbind, M_bind.
  destruct (SMSClient.send_each self mobiles template_id parameters [] w)
    as [[final' | e] w1]; cbn in *; [| discriminate].
  injection Hf as ->. split; [reflexivity |]. split; [assumption |].
  split.
  - intros m. rewrite Hdom. split; [intros [H | [? [=]]]; assumption | by left].
  - rewrite Hs, (Hok _ eq_refl), firstn_all. reflexivity.
Qed.

Lemma bulk_send_all_answered_witness :
  exists results,
    outcome (SMSClient.send_bulk_sms sample_client
               ["09123456789"; "09351234567"; "09123456789"] (PInt 12345) (PList []))
            (answering 200 "OK" (PDict [("status", PInt 1)]))
      = Ok (PDict results)
    /\ NoDup results.*1
    /\ (forall m, is_Some (dict_lookup results m)
                  <-> m ∈ ["09123456789"; "09351234567"; "09123456789"])
    /\ sent (SMSClient.send_bulk_sms sample_client
               ["09123456789"; "09351234567"; "09123456789"] (PInt 12345) (PList [])
               (answering 200 "OK" (PDict [("status", PInt 1)]))).2
         = sent (answering 200 "OK" (PDict [("status", PInt 1)]))
             ++ map (verify_call sample_client (PInt 12345) (PList []))
                  ["09123456789"; "09351234567"; "09123456789"].
Proof.
  apply (bulk_send_all_answered sample_client
           ["09123456789"; "09351234567"; "09123456789"] (PInt 12345) (PList [])
           (answering 200 "OK" (PDict [("status", PInt 1)]))).
  intros history req. eexists. eexists.
  split; [reflexivity |]. split; [cbn; lia | reflexivity].
Defined.

(** ** Callers that read a field of the response *)

(** The three ways a dispatch can end. *)
Lemma _request_cases self verb endpoint data w :
  (exists v, SMSClient._request self verb endpoint data w
               = (Ok v, after_send w (dispatched self verb endpoint data)))
  \/ (exists e, SMSClient._request self verb endpoint data w
                  = (Raise e, after_send w (dispatched self verb endpoint data)))
  \/ (exists desc,
        SMSClient._request self verb endpoint data w
          = (Raise (request_failed desc),
             after_failure w (dispatched self verb endpoint data) desc)).
Proof.
  destruct (remote w (sent w) (dispatched self verb endpoint data))
    as [r | e] eqn:Hr.
  - destruct (status_error_dec r) as [Herr | Hpass].
    + right; right. exact (_request_error_status _ _ _ _ _ _ Hr Herr).
    + destruct (json_body r) as [v | e] eqn:Hj.
      * left. exists v. exact (_request_decoded _ _ _ _ _ _ _ Hr Hpass Hj).
      * rewrite (_request_json_raises _ _ _ _ _ _ _ Hr Hpass Hj).
        destruct e; eauto.
  - destruct e as [desc | e | m | m].
    + right; right. exists desc. exact (_request_no_response _ _ _ _ _ _ Hr).
    + right; left. eexists.
      apply (_request_other_exception _ _ _ _ _ _ Hr). intros d; discriminate.
    + right; left. eexists.
      apply (_request_other_exception _ _ _ _ _ _ Hr). intros d; discriminate.
    + right; left. eexists.
      apply (_request_other_exception _ _ _ _ _ _ Hr). intros d; discriminate.
Qed.

Lemma py_get_non_object (v : pyval) key w :
  (forall d, v <> PDict d) ->
  py_get v key w
    = (Raise (AttributeError ("'" +:+ type_name v +:+ "' object has no attribute 'get'")), w).
Proof. intros H. destruct v; try reflexivity. destruct (H entries eq_refl). Qed.

Lemma py_get_or_non_object (v : pyval) key fallback w :
  (forall d, v <> PDict d) ->
  py_get_or v key fallback w
    = (Raise (AttributeError ("'" +:+ type_name v +:+ "' object has no attribute 'get'")), w).
Proof. intros H. destruct v; try reflexivity. destruct (H entries eq_refl). Qed.

(** X9: a 2xx response whose body decodes to something other than an
    object (a list, a string, a number, null) makes every caller that reads
    a field raise [AttributeError], not [APIError]: the call has been made
    by then, and nothing is logged.  So for [check_credit],
    [get_sms_status], [get_delivery_report] and [check_invalid_numbers]. *)
Theorem non_object_response_raises_AttributeError self w :
  (forall r v,
     remote w (sent w) (dispatched self "GET" "credit" None) = Ok r ->
     200 <= status_code r < 300 ->
     json_body r = Ok v ->
     (forall d, v <> PDict d) ->
     SMSClient.check_credit self w
       = (Raise (AttributeError
                   ("'" +:+ type_name v +:+ "' object has no attribute 'get'")),
          after_send w (dispatched self "GET" "credit" None)))
  /\ (forall message_id r v,
       remote w (sent w)
         (dispatched self "GET" ("sms/status/" +:+ message_id) None) = Ok r ->
       200 <= status_code r < 300 ->
       json_body r = Ok v ->
       (forall d, v <> PDict d) ->
       SMSClient.get_sms_status self message_id w
         = (Raise (AttributeError
                     ("'" +:+ type_name v +:+ "' object has no attribute 'get'")),
            after_send w (dispatched self "GET" ("sms/status/" +:+ message_id) None)))
  /\ (forall message_id r v,
       remote w (sent w)
         (dispatched self "GET" ("sms/delivery/" +:+ message_id) None) = Ok r ->
       200 <= status_code r < 300 ->
       json_body r = Ok v ->
       (forall d, v <> PDict d) ->
       get_delivery_report self message_id w
         = (Raise (AttributeError
                     ("'" +:+ type_name v +:+ "' object has no attribute 'get'")),
            after_send w (dispatched self "GET" ("sms/delivery/" +:+ message_id) None)))
  /\ (forall numbers r v,
       remote w (sent w)
         (dispatched self "POST" "sms/check-invalid"
            (Some (PDict [("numbers", numbers)]))) = Ok r ->
       200 <= status_code r < 300 ->
       json_body r = Ok v ->
       (forall d, v <> PDict d) ->
       check_invalid_numbers self numbers w
         = (Raise (AttributeError
                     ("'" +:+ type_name v +:+ "' object has no attribute 'get'")),
            after_send w (dispatched self "POST" "sms/check-invalid"
                            (Some (PDict [("numbers", numbers)]))))).
Proof.
  repeat split.
  - intros r v Hr Hs Hj Hv. unfold SMSClient.check_credit, mbind, M_bind.
    rewrite (_request_2xx _ _ _ _ _ _ _ Hr Hs Hj), (py_get_non_object _ _ _ Hv).
    reflexivity.
  - intros message_id r v Hr Hs Hj Hv.
    unfold SMSClient.get_sms_status, mbind, M_bind.
    rewrite (_request_2xx _ _ _ _ _ _ _ Hr Hs Hj), (py_get_non_object _ _ _ Hv).
    reflexivity.
  - intros message_id r v Hr Hs Hj Hv.
    unfold get_delivery_report, mbind, M_bind.
    rewrite (_request_2xx _ _ _ _ _ _ _ Hr Hs Hj), (py_get_non_object _ _ _ Hv).
    reflexivity.
  - intros numbers r v Hr Hs Hj Hv.
    unfold check_invalid_numbers, mbind, M_bind.
    rewrite (_request_2xx _ _ _ _ _ _ _ Hr Hs Hj), (py_get_or_non_object _ _ _ _ Hv).
    reflexivity.
Qed.

Lemma non_object_response_raises_AttributeError_witness :
  SMSClient.check_credit sample_client (answering 200 "OK" (PList []))
    = (Raise (AttributeError "'list' object has no attribute 'get'"),
       after_send (answering 200 "OK" (PList []))
         (dispatched sample_client "GET" "credit" None))
  /\ check_invalid_numbers sample_client (PList [PStr "09123456789"])
       (answering 200 "OK" PNone)
    = (Raise (AttributeError "'NoneType' object has no attribute 'get'"),
       after_send (answering 200 "OK" PNone)
         (dispatched sample_client "POST" "sms/check-invalid"
            (Some (PDict [("numbers", PList [PStr "09123456789"])])))).
Proof.
  split.
  - apply (proj1 (non_object_response_raises_AttributeError sample_client
                    (answering 200 "OK" (PList [])))
             (mk_Response 200 "OK" "https://api.sms.ir/v1/credit" (Ok (PList [])))
             (PList [])).
    + reflexivity.
    + cbn. lia.
    + reflexivity.
    + intros d. discriminate.
  - apply (proj2 (proj2 (proj2 (non_object_response_raises_AttributeError
                                  sample_client (answering 200 "OK" PNone))))
             (PList [PStr "09123456789"])
             (mk_Response 200 "OK" "https://api.sms.ir/v1/sms/check-invalid" (Ok PNone))
             PNone).
    + reflexivity.
    + cbn. lia.
    + reflexivity.
    + intros d. discriminate.
Defined.

(** X10: [check_invalid_numbers] falls back to the empty list only when
    the response object has no ["invalid_numbers"] key; a key that is
    there is returned as it is, so a null under it comes back as [None],
    not as a list. *)
Theorem check_invalid_numbers_fallback self numbers w r d
    (Hanswer : remote w (sent w)
                 (dispatched self "POST" "sms/check-invalid"
                    (Some (PDict [("numbers", numbers)]))) = Ok r)
    (H2xx : 200 <= status_code r < 300)
    (Hbody : json_body r = Ok (PDict d)) :
  (dict_lookup d "invalid_numbers" = None ->
   outcome (check_invalid_numbers self numbers) w = Ok (PList []))
  /\ (forall v, dict_lookup d "invalid_numbers" = Some v ->
       outcome (check_invalid_numbers self numbers) w = Ok v).
Proof.
  assert (Hrun : outcome (check_invalid_numbers self numbers) w
                 = Ok (default (PList []) (dict_lookup d "invalid_numbers"))).
  { unfold outcome, check_invalid_numbers, mbind, M_bind.
    rewrite (_request_2xx _ _ _ _ _ _ _ Hanswer H2xx Hbody). reflexivity. }
  split; [intros Hd | intros v Hd]; rewrite Hrun, Hd; reflexivity.
Qed.

Lemma check_invalid_numbers_fallback_witness :
  outcome (check_invalid_numbers sample_client (PList [PStr "09123456789"]))
          (answering 200 "OK" (PDict [("invalid_numbers", PNone)])) = Ok PNone.
Proof.
  refine (proj2 (check_invalid_numbers_fallback sample_client
                   (PList [PStr "09123456789"])
                   (answering 200 "OK" (PDict [("invalid_numbers", PNone)]))
                   (mk_Response 200 "OK" "https://api.sms.ir/v1/sms/check-invalid"
                      (Ok (PDict [("invalid_numbers", PNone)])))
                   [("invalid_numbers", PNone)] _ _ _) PNone _).
  - reflexivity.
  - cbn. lia.
  - reflexivity.
  - reflexivity.
Defined.

(** ** The listing functions *)

(** X11: [get_sent_messages] asks for ["sms/sent?page=<page>&per_page=<n>"]
    with both numbers in decimal.  On a 2xx response object: without a
    ["messages"] key it returns the empty list; a list under the key is
    returned as it is and its length is logged; a value with no length
    (null, a number) under the key ends in a [TypeError], after the call
    has been made and with nothing logged. *)
Theorem get_sent_messages_outcomes self page per_page w r d
    (Hanswer : remote w (sent w)
                 (dispatched self "GET"
                    ("sms/sent?page=" +:+ pretty page +:+ "&per_page=" +:+ pretty per_page)
                    None) = Ok r)
    (H2xx : 200 <= status_code r < 300)
    (Hbody : json_body r = Ok (PDict d)) :
  (dict_lookup d "messages" = None ->
   outcome (get_sent_messages self page per_page) w = Ok (Returned (PList [])))
  /\ (forall items, dict_lookup d "messages" = Some (PList items) ->
       outcome (get_sent_messages self page per_page) w = Ok (Returned (PList items))
       /\ log (get_sent_messages self page per_page w).2
            = log w ++ [mk_LogRecord INFO
                          [Text "دریافت "; Text (pretty (Z.of_nat (length items)));
                           Text " پیامک ارسال‌شده از صفحه "; Text (pretty page)]])
  /\ (forall v, dict_lookup d "messages" = Some v -> py_len v = None ->
       get_sent_messages self page per_page w
         = (Ok (TypeError (no_len v)),
            after_send w
              (dispatched self "GET"
                 ("sms/sent?page=" +:+ pretty page +:+ "&per_page=" +:+ pretty per_page)
                 None))).
Proof.
  assert (Hrun : get_sent_messages self page per_page w
            = (let messages := default (PList []) (dict_lookup d "messages") in
               match py_len messages with
               | Some n =>
                   _ ← logging INFO
                         [Text "دریافت "; Text (pretty n);
                          Text " پیامک ارسال‌شده از صفحه "; Text (pretty page)];
                   mret (Returned messages)
               | None => mret (TypeError (no_len messages))
               end)
              (after_send w
                 (dispatched self "GET"
                    ("sms/sent?page=" +:+ pretty page +:+ "&per_page=" +:+ pretty per_page)
                    None))).
  { unfold get_sent_messages, mbind at 1 2, M_bind at 1 2.
    rewrite (_request_2xx _ _ _ _ _ _ _ Hanswer H2xx Hbody). reflexivity. }
  unfold outcome. rewrite Hrun. repeat split.
  - intros ->. reflexivity.
  - rewrite H. reflexivity.
  - rewrite H. reflexivity.
  - intros v -> Hlen. cbn. rewrite Hlen. reflexivity.
Qed.

Lemma get_sent_messages_outcomes_witness :
  get_sent_messages sample_client 2 10
    (answering 200 "OK" (PDict [("messages", PNone)]))
  = (Ok (TypeError "object of type 'NoneType' has no len()"),
     after_send (answering 200 "OK" (PDict [("messages", PNone)]))
       (dispatched sample_client "GET" "sms/sent?page=2&per_page=10" None)).
Proof.
  refine (proj2 (proj2 (get_sent_messages_outcomes sample_client 2 10
                   (answering 200 "OK" (PDict [("messages", PNone)]))
                   (mk_Response 200 "OK"
                      "https://api.sms.ir/v1/sms/sent?page=2&per_page=10"
                      (Ok (PDict [("messages", PNone)])))
                   [("messages", PNone)] _ _ _)) PNone _ _).
  - reflexivity.
  - cbn. lia.
  - reflexivity.
  - reflexivity.
  - reflexivity.
Defined.

(** X12: [get_recent_sms_reports] asks for
    ["sms/reports?last_hours=<hours>"] and treats the response like
    [get_sent_messages]: the empty list without a ["messages"] key, the
    list as it is with its length logged, and a [TypeError] for a value
    with no length. *)
Theorem get_recent_sms_reports_outcomes self hours w r d
    (Hanswer : remote w (sent w)
                 (dispatched self "GET" ("sms/reports?last_hours=" +:+ pretty hours)
                    None) = Ok r)
    (H2xx : 200 <= status_code r < 300)
    (Hbody : json_body r = Ok (PDict d)) :
  (dict_lookup d "messages" = None ->
   outcome (get_recent_sms_reports self hours) w = Ok (Returned (PList [])))
  /\ (forall items, dict_lookup d "messages" = Some (PList items) ->
       outcome (get_recent_sms_reports self hours) w = Ok (Returned (PList items))
       /\ log (get_recent_sms_reports self hours w).2
            = log w ++ [mk_LogRecord INFO
                          [Text "گزارش "; Text (pretty (Z.of_nat (length items)));
                           Text " پیامک اخیر دریافت شد."]])
  /\ (forall v, dict_lookup d "messages" = Some v -> py_len v = None ->
       get_recent_sms_reports self hours w
         = (Ok (TypeError (no_len v)),
            after_send w
              (dispatched self "GET" ("sms/reports?last_hours=" +:+ pretty hours)
                 None))).
Proof.
  assert (Hrun : get_recent_sms_reports self hours w
            = (let messages := default (PList []) (dict_lookup d "messages") in
               match py_len messages with
               | Some n =>
                   _ ← logging INFO
                         [Text "گزارش "; Text (pretty n);
                          Text " پیامک اخیر دریافت شد."];
                   mret (Returned messages)
               | None => mret (TypeError (no_len messages))
               end)
              (after_send w
                 (dispatched self "GET" ("sms/reports?last_hours=" +:+ pretty hours)
                    None))).
  { unfold get_recent_sms_reports, mbind at 1 2, M_bind at 1 2.
    rewrite (_request_2xx _ _ _ _ _ _ _ Hanswer H2xx Hbody). reflexivity. }
  unfold outcome. rewrite Hrun. repeat split.
  - intros ->. reflexivity.
  - rewrite H. reflexivity.
  - rewrite H. reflexivity.
  - intros v -> Hlen. cbn. rewrite Hlen. reflexivity.
Qed.

Lemma get_recent_sms_reports_outcomes_witness :
  outcome (get_recent_sms_reports sample_client 24)
          (answering 200 "OK" (PDict [("count", PInt 0)]))
    = Ok (Returned (PList [])).
Proof.
  refine (proj1 (get_recent_sms_reports_outcomes sample_client 24
                   (answering 200 "OK" (PDict [("count", PInt 0)]))
                   (mk_Response 200 "OK"
                      "https://api.sms.ir/v1/sms/reports?last_hours=24"
                      (Ok (PDict [("count", PInt 0)])))
                   [("count", PInt 0)] _ _ _) _).
  - reflexivity.
  - cbn. lia.
  - reflexivity.
  - reflexivity.
Defined.

(** ** Template parameters given as keyword arguments *)

Lemma template_parameters_eq (kw1 kw2 : list (string * scalar)) :
  map template_parameter kw1 = map template_parameter kw2
  <-> map keyword_text kw1 = map keyword_text kw2.
Proof.
  revert kw2. induction kw1 as [| a kw1 IH]; intros [| b kw2]; cbn;
    try (split; [reflexivity || discriminate | reflexivity || discriminate]).
  split.
  - intros H. injection H as Hn Hv Hrest.
    apply IH in Hrest. rewrite Hrest. f_equal.
    unfold keyword_text. by rewrite Hn, Hv.
  - intros H. injection H as Hn Hv Hrest.
    apply IH in Hrest. rewrite Hrest. f_equal.
    unfold template_parameter. by rewrite Hn, Hv.
Qed.

(** X13: [send_sms_with_custom_template] sends every keyword value as text:
    what the call does depends on the keyword arguments only through their
    names and the [str()] of their values, in order.  Two keyword lists
    with the same names and texts give the same run (so [CODE=789654] and
    [CODE="789654"] cannot be told apart), and any other two give
    different calls. *)
Theorem custom_template_depends_on_text_only self mobile template_id kw1 kw2 w :
  send_sms_with_custom_template self mobile template_id kw1 w
    = send_sms_with_custom_template self mobile template_id kw2 w
  <-> map keyword_text kw1 = map keyword_text kw2.
Proof.
  unfold send_sms_with_custom_template. split.
  - intros Hrun. apply template_parameters_eq.
    apply (f_equal (fun o => sent o.2)) in Hrun. cbn beta in Hrun.
    rewrite !send_sms_sent in Hrun.
    apply app_inv_head in Hrun. injection Hrun as Hp. exact Hp.
  - intros Htext. apply (proj2 (template_parameters_eq kw1 kw2)) in Htext.
    by rewrite Htext.
Qed.

Example custom_template_number_as_text :
  send_sms_with_custom_template sample_client "09123456789" (PInt 12345)
    [("CODE", SInt 789654); ("NAME", SStr "Ali")]
    (answering 200 "OK" (PDict [("status", PInt 1)]))
  = send_sms_with_custom_template sample_client "09123456789" (PInt 12345)
      [("CODE", SStr "789654"); ("NAME", SStr "Ali")]
      (answering 200 "OK" (PDict [("status", PInt 1)])).
Proof. reflexivity. Qed.

(** ** The constructor *)


(** ** The credential on the calls of the module-level functions *)

Lemma only_sends_py_get_or P obj key fallback :
  only_sends P (py_get_or obj key fallback).
Proof.
  destruct obj; first [apply only_sends_ret | apply only_sends_raise].
Qed.

(** X15: the functions written at module level also send the credential of
    the client they are given: every call that [get_sent_messages],
    [get_delivery_report], [send_sms_with_custom_template],
    [get_recent_sms_reports], [check_invalid_numbers] and [send_test_sms]
    add to the calls attempted has it under ["x-api-key"]. *)
Theorem module_level_functions_carry_credential api_key w0 :
  exists client,
    SMSClient.__init__ api_key w0 = (Ok client, w0)
    /\ (forall page per_page,
          only_sends (carries_credential api_key)
            (get_sent_messages client page per_page))
    /\ (forall message_id,
          only_sends (carries_credential api_key)
            (get_delivery_report client message_id))
    /\ (forall mobile template_id kwargs,
          only_sends (carries_credential api_key)
            (send_sms_with_custom_template client mobile template_id kwargs))
    /\ (forall hours,
          only_sends (carries_credential api_key)
            (get_recent_sms_reports client hours))
    /\ (forall numbers,
          only_sends (carries_credential api_key)
            (check_invalid_numbers client numbers))
    /\ (forall mobile template_id parameters,
          only_sends (carries_credential api_key)
            (send_test_sms client mobile template_id parameters)).
Proof.
  eexists. split; [apply __init___run |].
  assert (Hkey : forall verb endpoint data,
            carries_credential api_key
              (dispatched
                 (SMSClient.mk api_key
                    (requests.headers_update (requests.mk_Session (default_headers w0))
                       [("Content-Type", "application/json"); ("Accept", "text/plain");
                        ("x-api-key", api_key)]))
                 verb endpoint data)).
  { intros verb endpoint data. unfold carries_credential. cbn.
    apply lookup_insert_eq. }
  repeat split.
  - intros page per_page. unfold get_sent_messages.
    apply only_sends_bind; [apply only_sends__request, Hkey | intros response].
    apply only_sends_bind; [apply only_sends_py_get_or | intros messages].
    destruct (py_len messages); repeat only_sends_step.
  - intros message_id. unfold get_delivery_report.
    apply only_sends_bind; [apply only_sends__request, Hkey | intros response].
    repeat only_sends_step.
  - intros mobile template_id kwargs. unfold send_sms_with_custom_template.
    apply only_sends_send_sms. exact Hkey.
  - intros hours. unfold get_recent_sms_reports.
    apply only_sends_bind; [apply only_sends__request, Hkey | intros response].
    apply only_sends_bind; [apply only_sends_py_get_or | intros messages].
    destruct (py_len messages); repeat only_sends_step.
  - intros numbers. unfold check_invalid_numbers.
    apply only_sends_bind; [apply only_sends__request, Hkey | intros response].
    apply only_sends_bind; [apply only_sends_py_get_or | intros invalid].
    repeat only_sends_step.
  - intros mobile template_id parameters. unfold send_test_sms.
    apply only_sends_bind; [apply only_sends__request, Hkey | intros response].
    repeat only_sends_step.
Qed.

(** ** What [send_sms] logs *)

(** X16: [send_sms] writes its INFO record, naming the mobile and holding
    the response, exactly when it returns that response; when it raises,
    the log holds at most the dispatcher's one ERROR record more, and no
    INFO record. *)
Theorem send_sms_logs_success_only self mobile template_id parameters w :
  (forall v,
     outcome (SMSClient.send_sms self mobile template_id parameters) w = Ok v ->
     log (SMSClient.send_sms self mobile template_id parameters w).2
       = log w ++ [sent_record mobile v])
  /\ (forall e,
       outcome (SMSClient.send_sms self mobile template_id parameters) w = Raise e ->
       log (SMSClient.send_sms self mobile template_id parameters w).2 = log w
       \/ exists desc,
            log (SMSClient.send_sms self mobile template_id parameters w).2
              = log w ++ [failure_record
                            (verify_call self template_id parameters mobile) desc]).
Proof.
  unfold outcome, SMSClient.send_sms, mbind, M_bind.
  fold (verify_payload mobile template_id parameters).
  destruct (_request_cases self "POST" "send/verify"
              (Some (verify_payload mobile template_id parameters)) w)
    as [[v0 ->] | [[e0 ->] | [desc ->]]]; cbn.
  - split; [intros v [= <-]; reflexivity | discriminate].
  - split; [discriminate | intros e _; by left].
  - split; [discriminate | intros e _; right; by exists desc].
Qed.

(** ** The send time of [schedule_sms] *)












(** ** Reading an error text back *)

Lemma colon_free_pretty_N_go x s : colon_free s -> colon_free (pretty_N_go x s).
Proof.
  revert s. induction (N.lt_wf_0 x) as [x _ IH]; intros s Hs.
  assert (x = 0 \/ 0 < x)%N as [-> | Hx] by lia.
  - by rewrite pretty_N_go_0.
  - rewrite pretty_N_go_step by done. apply IH; [by apply N.div_lt |].
    split; [| exact Hs].
    unfold pretty_N_char. by repeat case_match.
Qed.

Lemma colon_free_pretty_N (x : N) : colon_free (pretty x).
Proof.
  unfold pretty, pretty_N. case_decide.
  - cbn. split; [discriminate | exact I].
  - by apply colon_free_pretty_N_go.
Qed.

Lemma colon_free_pretty_Z (c : Z) : colon_free (pretty c).
Proof.
  destruct c as [| p | p]; unfold pretty, pretty_Z.
  - cbn. split; [discriminate | exact I].
  - apply colon_free_pretty_N.
  - cbn. split; [discriminate | apply colon_free_pretty_N].
Qed.

Lemma colon_free_split (a a' b b' : string) :
  colon_free a -> colon_free a' ->
  a +:+ String colon b = a' +:+ String colon b' -> a = a' /\ b = b'.
Proof.
  revert a'. induction a as [| c a IH]; intros [| c' a'] Ha Ha' H; cbn in *.
  - injection H as ->. split; reflexivity.
  - injection H as <- _. destruct Ha' as [Hc _]. by destruct Hc.
  - injection H as -> _. destruct Ha as [Hc _]. by destruct Hc.
  - injection H as -> H. destruct Ha as [_ Ha], Ha' as [_ Ha'].
    destruct (IH a' Ha Ha' H) as [-> ->]. split; reflexivity.
Qed.

(** X18: the text of an [APIError] tells the error: two errors that render
    alike have the same message and the same status code, a status of zero
    counting as none.  (A zero and an absent status are the only two that
    a reader of the text cannot tell apart.) *)
Theorem APIError_text_determines_error (e1 e2 : APIError.t)
    (Htext : APIError.__str__ e1 = APIError.__str__ e2) :
  APIError.message e1 = APIError.message e2
  /\ effective_status (APIError.status_code e1)
     = effective_status (APIError.status_code e2).
Proof.
  destruct e1 as [m1 s1], e2 as [m2 s2].
  unfold APIError.__str__, effective_status in *. cbn in *.
  destruct (APIError.truthy s1) eqn:T1, (APIError.truthy s2) eqn:T2.
  - destruct s1 as [c1 |], s2 as [c2 |]; try discriminate.
    cbn in Htext. injection Htext as Htext.
    apply colon_free_split in Htext as [Hc Hm];
      [| apply colon_free_pretty_Z | apply colon_free_pretty_Z].
    apply (inj pretty) in Hc. split; congruence.
  - cbn in Htext. discriminate Htext.
  - cbn in Htext. discriminate Htext.
  - cbn in Htext. injection Htext as Hm. change (m1 = m2) in Hm.
    split; [exact Hm | reflexivity].
Qed.

Lemma APIError_text_determines_error_witness :
  APIError.message (APIError.mk "X" (Some 0)) = APIError.message (APIError.mk "X" None)
  /\ effective_status (APIError.status_code (APIError.mk "X" (Some 0)))
     = effective_status (APIError.status_code (APIError.mk "X" None)).
Proof.
  apply (APIError_text_determines_error (APIError.mk "X" (Some 0))
           (APIError.mk "X" None)).
  reflexivity.
Defined.

(** ** Functions that hand the response back *)

(** X19: [send_test_sms] and [cancel_scheduled_sms] read no field of the
    response: on a 2xx response they return the decoded value whatever its
    shape, object or not, after one POST to ["sms/send-test"] (with the
    payload of [send_sms]) or one DELETE of ["sms/schedule/<id>"], and
    write one INFO record holding that value. *)
Theorem pass_through_functions_accept_any_shape self w :
  (forall mobile template_id parameters r v,
     remote w (sent w)
       (dispatched self "POST" "sms/send-test"
          (Some (verify_payload mobile template_id parameters))) = Ok r ->
     200 <= status_code r < 300 ->
     json_body r = Ok v ->
     outcome (send_test_sms self mobile template_id parameters) w = Ok v
     /\ log (send_test_sms self mobile template_id parameters w).2
          = log w ++ [mk_LogRecord INFO
                        [Text "پیامک تستی به "; Text mobile;
                         Text " ارسال شد. وضعیت: "; Value v]])
  /\ (forall message_id r v,
       remote w (sent w)
         (dispatched self "DELETE" ("sms/schedule/" +:+ message_id) None) = Ok r ->
       200 <= status_code r < 300 ->
       json_body r = Ok v ->
       outcome (cancel_scheduled_sms self message_id) w = Ok v
       /\ log (cancel_scheduled_sms self message_id w).2
            = log w ++ [mk_LogRecord INFO
                          [Text "پیامک "; Text message_id;
                           Text " لغو شد. وضعیت: "; Value v]]).
Proof.
  split.
  - intros mobile template_id parameters r v Hr Hs Hj.
    unfold outcome, send_test_sms, mbind, M_bind.
    fold (verify_payload mobile template_id parameters).
    rewrite (_request_2xx _ _ _ _ _ _ _ Hr Hs Hj). split; reflexivity.
  - intros message_id r v Hr Hs Hj.
    unfold outcome, cancel_scheduled_sms, mbind, M_bind.
    rewrite (_request_2xx _ _ _ _ _ _ _ Hr Hs Hj). split; reflexivity.
Qed.

Lemma pass_through_functions_accept_any_shape_witness :
  outcome (send_test_sms sample_client "09123456789" (PInt 12345) (PList []))
          (answering 200 "OK" (PList [PInt 1])) = Ok (PList [PInt 1])
  /\ outcome (cancel_scheduled_sms sample_client "1234567890")
             (answering 200 "OK" (PBool true)) = Ok (PBool true).
Proof.
  split.
  - refine (proj1 (proj1 (pass_through_functions_accept_any_shape sample_client
                            (answering 200 "OK" (PList [PInt 1])))
                     "09123456789" (PInt 12345) (PList [])
                     (mk_Response 200 "OK" "https://api.sms.ir/v1/sms/send-test"
                        (Ok (PList [PInt 1])))
                     (PList [PInt 1]) _ _ _)).
    + reflexivity.
    + cbn. lia.
    + reflexivity.
  - refine (proj1 (proj2 (pass_through_functions_accept_any_shape sample_client
                            (answering 200 "OK" (PBool true)))
                     "1234567890"
                     (mk_Response 200 "OK"
                        "https://api.sms.ir/v1/sms/schedule/1234567890"
                        (Ok (PBool true)))
                     (PBool true) _ _ _)).
    + reflexivity.
    + cbn. lia.
    + reflexivity.
Defined.

(** X20: [get_delivery_report] asks for ["sms/delivery/<id>"] and, on a
    2xx response object, returns what is under ["status"], or [None] when
    the object has no such key, and logs the value it returns. *)
Theorem get_delivery_report_reads_status self message_id w r d
    (Hanswer : remote w (sent w)
                 (dispatched self "GET" ("sms/delivery/" +:+ message_id) None) = Ok r)
    (H2xx : 200 <= status_code r < 300)
    (Hbody : json_body r = Ok (PDict d)) :
  outcome (get_delivery_report self message_id) w
    = Ok (default PNone (dict_lookup d "status"))
  /\ log (get_delivery_report self message_id w).2
       = log w ++ [mk_LogRecord INFO
                     [Text "گزارش تحویل پیامک "; Text message_id; Text ": ";
                      Value (default PNone (dict_lookup d "status"))]].
Proof.
  unfold outcome, get_delivery_report, mbind, M_bind.
  rewrite (_request_2xx _ _ _ _ _ _ _ Hanswer H2xx Hbody). split; reflexivity.
Qed.

Lemma get_delivery_report_reads_status_witness :
  outcome (get_delivery_report sample_client "1234567890")
          (answering 200 "OK" (PDict [("status", PStr "delivered")]))
    = Ok (PStr "delivered").
Proof.
  refine (proj1 (get_delivery_report_reads_status sample_client "1234567890"
                   (answering 200 "OK" (PDict [("status", PStr "delivered")]))
                   (mk_Response 200 "OK"
                      "https://api.sms.ir/v1/sms/delivery/1234567890"
                      (Ok (PDict [("status", PStr "delivered")])))
                   [("status", PStr "delivered")] _ _ _)).
  - reflexivity.
  - cbn. lia.
  - reflexivity.
Defined.
